(** * icon-service: SCORE deploy engine and transaction pre-validator

    A shallow embedding of [iconservice/deploy/icon_score_deploy_engine.py]
    (class [IconScoreDeployEngine]) and of the pre-validator exercised by
    [tests/test_icon_pre_validator.py].

    The engine is stateful Python: it reads and writes the deploy storage,
    the file system, the SCORE mapper and the dictionaries it is handed.
    It is embedded as a state-and-exception monad over a record [World];
    an exception leaves the writes made before it in place, as in Python.
    Collaborating classes whose code is not part of the engine module are
    either modelled from the specification (deploy storage, deployer) or
    taken as an interface [Externals] (SCORE mapper, type converter, the
    lifecycle hooks of the deployed contract). *)

From Stdlib Require Import ZArith Strings.String Strings.Ascii Strings.Byte.
From stdpp Require Import base option list gmap strings numbers countable pretty.

#[local] Open Scope Z_scope.
#[local] Open Scope string_scope.
#[local] Open Scope list_scope.

(** ** Python byte strings *)

Module Bytes.

(** A Python [bytes] object. *)
Definition bytes := list byte.

#[global] Instance byte_eq_dec : EqDecision byte.
Proof.
  intros a b. destruct (decide (Byte.to_N a = Byte.to_N b)) as [e|n].
  - left. apply (f_equal Byte.of_N) in e.
    rewrite !Byte.of_to_N in e. congruence.
  - right. congruence.
Defined.

#[global] Instance byte_countable : Countable byte :=
  inj_countable Byte.to_N Byte.of_N Byte.of_to_N.

(** One lowercase hexadecimal digit, for a value below 16. *)
Definition hex_digit (n : N) : ascii :=
  if (n <? 10)%N then ascii_of_N (48 + n) else ascii_of_N (87 + n).

(** [bytes.hex()]: two lowercase digits per byte. *)
Fixpoint hex (bs : bytes) : string :=
  match bs with
  | [] => ""
  | b :: bs' =>
      String (hex_digit (Byte.to_N b / 16))
        (String (hex_digit (Byte.to_N b mod 16)) (hex bs'))
  end.

(** The value of a hexadecimal digit, in either case. *)
Definition digit_value (c : ascii) : option N :=
  let n := N_of_ascii c in
  if ((48 <=? n) && (n <=? 57))%N then Some (n - 48)%N
  else if ((97 <=? n) && (n <=? 102))%N then Some (n - 87)%N
  else if ((65 <=? n) && (n <=? 70))%N then Some (n - 55)%N
  else None.

(** [Py_ISSPACE]: space, tab, line feed, vertical tab, form feed,
    carriage return. *)
Definition is_space (c : ascii) : bool :=
  let n := N_of_ascii c in
  ((n =? 32) || ((9 <=? n) && (n <=? 13)))%N.

Definition byte_of_nibbles (top bot : N) : option byte :=
  Byte.of_N (16 * top + bot).

(** [bytes.fromhex(s)] (CPython 3.7 and later): white space between the
    bytes is skipped, each byte is two adjacent hexadecimal digits, and
    anything else is a [ValueError], here [None]. *)
Fixpoint fromhex (s : string) : option bytes :=
  match s with
  | EmptyString => Some []
  | String c s' =>
      if is_space c then fromhex s'
      else
        match s' with
        | EmptyString => None
        | String d s'' =>
            match digit_value c, digit_value d with
            | Some top, Some bot =>
                match byte_of_nibbles top bot, fromhex s'' with
                | Some b, Some bs => Some (b :: bs)
                | _, _ => None
                end
            | _, _ => None
            end
        end
  end.

(** The slice [s[n:]] of a [str]: the first [n] characters are dropped.
    The characters of a [string] stand for code points below 256, one
    character for one code point. *)
Fixpoint drop_str (n : nat) (s : string) : string :=
  match n, s with
  | O, _ => s
  | S _, EmptyString => EmptyString
  | S n', String _ s' => drop_str n' s'
  end.

End Bytes.
Export Bytes.

Example hex_example : hex [x12; x34; xab] = "1234ab".
Proof. reflexivity. Qed.

Example fromhex_example : fromhex (drop_str 2 "0x1234") = Some [x12; x34].
Proof. reflexivity. Qed.

Example fromhex_odd : fromhex "123" = None.
Proof. reflexivity. Qed.

(** ** Addresses, deploy types, Python values *)

Inductive AddressPrefix := EOA | CONTRACT.

(** [iconservice.base.address.Address]: a prefix and a 20-byte body. *)
Record Address := mkAddress { prefix : AddressPrefix; body : bytes }.

#[global] Instance AddressPrefix_eq_dec : EqDecision AddressPrefix.
Proof. solve_decision. Defined.

#[global] Instance Address_eq_dec : EqDecision Address.
Proof. solve_decision. Defined.

#[global] Instance Address_countable : Countable Address :=
  inj_countable'
    (fun a => (match prefix a with EOA => false | CONTRACT => true end, body a))
    (fun p => mkAddress (if fst p then CONTRACT else EOA) (snd p))
    (fun a => match a with mkAddress EOA _ | mkAddress CONTRACT _ => eq_refl end).

(** [ZERO_SCORE_ADDRESS], written cx0000000000000000000000000000000000000000
    in the docstring of [invoke]. *)
Definition ZERO_SCORE_ADDRESS : Address := mkAddress CONTRACT (replicate 20 x00).

(** [iconservice.deploy.DeployType]. *)
Inductive DeployType := INSTALL | UPDATE.

#[global] Instance DeployType_eq_dec : EqDecision DeployType.
Proof. solve_decision. Defined.

(** The values a calldata dictionary holds: a [str], a [bytes], an [int]
    (what the type converter makes of a number written as a string) or a
    nested dictionary (the [params] of the lifecycle hook). A [str] is a
    sequence of characters with code points below 256; a nested dictionary
    is held by its contents, and a write into it is a write of the entry
    that holds it. *)
#[warnings="-register-all"]
Inductive PyVal :=
| VStr (s : string)
| VBytes (b : bytes)
| VInt (z : Z)
| VDict (kvs : list (string * PyVal)).

(** A Python [dict] with [str] keys. *)
Abbreviation Dict := (gmap string PyVal).

(** [v == s] for a looked-up value [v] (or [None]) and a [str] literal. *)
Definition eq_str (v : option PyVal) (s : string) : bool :=
  match v with
  | Some (VStr s') => bool_decide (s' = s)
  | _ => false
  end.

Lemma eq_str_true v s : eq_str v s = true ↔ v = Some (VStr s).
Proof.
  unfold eq_str. destruct v as [[s'| | |]|]; try (split; [discriminate|congruence]).
  rewrite bool_decide_eq_true. split; congruence.
Qed.

Lemma eq_str_false v s : eq_str v s = false ↔ v ≠ Some (VStr s).
Proof.
  rewrite <- eq_str_true. destruct (eq_str v s); split; congruence.
Qed.

(** ** Exceptions *)

(** A message built by an f-string: the literal text and the value
    interpolated after it. *)
Inductive Message :=
| Msg (text : string)
| MsgHash (text : string) (h : bytes)
| MsgAddr (text : string) (a : Address)
| MsgVal (text : string) (v : option PyVal).

(** An exception raised by code outside the engine (the type converter, a
    lifecycle hook), which the engine lets through. *)
Record Foreign := mkForeign { exc_class : string; exc_message : string }.

Inductive Exception :=
| InvalidParamsException (m : Message)
| InvalidRequestException (m : Message)
| KeyError (key : string)
| TypeError
| ValueError
| FileExistsError (p : string)
| FileNotFoundError
| NotADirectoryError
| OSError (errno : string)
| Propagated (e : Foreign).

Inductive Result (A : Type) :=
| Ok (a : A)
| Raise (e : Exception).
Arguments Ok {A} a.
Arguments Raise {A} e.

(** ** Execution context *)

Record Transaction := mkTransaction {
  origin : Address;
  hash : bytes;
  index : Z
}.

Record Block := mkBlock { height : Z }.

Record IconScoreContext := mkContext { tx : Transaction; block : Block }.

(** ** Paths *)

Definition starts_with_slash (s : string) : bool :=
  match s with
  | String c _ => bool_decide (c = "/"%char)
  | EmptyString => false
  end.

Fixpoint ends_with_slash (s : string) : bool :=
  match s with
  | EmptyString => false
  | String c EmptyString => bool_decide (c = "/"%char)
  | String _ s' => ends_with_slash s'
  end.

(** [os.path.join(a, b)] (POSIX). *)
Definition path_join (a b : string) : string :=
  if starts_with_slash b then b
  else if bool_decide (a = "") || ends_with_slash a then a +:+ b
  else a +:+ "/" +:+ b.

(** The f-string [f'{h}_{i}'] of two integers. *)
Definition version_name (h i : Z) : string := pretty h +:+ "_" +:+ pretty i.

Example version_name_0_0 : version_name 0 0 = "0_0".
Proof. reflexivity. Qed.

Example path_join_example :
  path_join (path_join "/score" (hex [x01; xff])) (version_name 12 3) = "/score/01ff/12_3".
Proof. reflexivity. Qed.

(** ** The state the engine works on *)

(** Modelled from the spec: [DeployInfo], the record the deploy storage
    ([IconScoreDeployStorage]) keeps per contract address: the owner, the
    hash of the transaction whose content is active, and the hash of a
    pending deploy, or none. *)
Record DeployInfo := mkDeployInfo {
  owner : Address;
  current_tx_hash : option bytes;
  next_tx_hash : option bytes
}.

(** Modelled from the spec: [TxDeployParams], the record the deploy storage
    keeps per transaction hash. The calldata dictionary (content type,
    content, init params) is stored by value. *)
Record TxDeployRecord := mkTxDeployRecord {
  rec_score_address : Address;
  rec_deploy_type : DeployType;
  rec_deployer : Address;
  rec_data : Dict
}.

(** Modelled from the spec: the two durable mappings of the deploy storage,
    from contract address to [DeployInfo] and from transaction hash to
    [TxDeployParams]. *)
Record Storage := mkStorage {
  deploy_infos : gmap Address DeployInfo;
  tx_records : gmap bytes TxDeployRecord
}.

(** A reference to a Python [dict] object. *)
Abbreviation loc := positive.

(** The object [get_deploy_tx_params] returns; the engine reads its
    attributes [score_address], [deploy_state] and [deploy_data]. *)
Record IconScoreDeployTXParams := mkTXParams {
  score_address : Address;
  deploy_state : DeployType;
  deploy_data : loc
}.

(** An entry of the file system below the score root. Paths are absolute
    and the directories above an entry are implicit. *)
Inductive Node := Directory | File | Symlink (src : string).

(** A loaded SCORE instance, as [get_icon_score] returns it. *)
Inductive IconScoreBase := Instance (id : N).

(** The bound methods [score.on_install] and [score.on_update]. *)
Inductive Method := on_install (score : IconScoreBase) | on_update (score : IconScoreBase).

(** What the engine asks of its collaborators, in the order it asks. *)
Inductive Event :=
| EvDeploy (tx_hash : bytes)
    (* IconScoreDeployEngine.deploy is entered *)
| EvDeployerDeploy (address : Address) (data : option PyVal) (block_height transaction_index : Z)
    (* IconScoreDeployer.deploy is called *)
| EvCall (on_deploy : Method) (kwargs : list (string * PyVal)).
    (* on_deploy( **params ) is called *)

(** [M] is the state of the SCORE mapper ([IconScoreInfoMapper]). *)
Record World (M : Type) := mkWorld {
  storage : Storage;
  heap : gmap loc Dict;
  fs : gmap string Node;
  slots : gmap (Address * Z * Z) (option PyVal);
  mapper : M;
  trace : list Event
}.
Arguments mkWorld {M}.
Arguments storage {M}.
Arguments heap {M}.
Arguments fs {M}.
Arguments slots {M}.
Arguments mapper {M}.
Arguments trace {M}.

Section Setters.
Context {M : Type}.
Implicit Type w : World M.

Definition set_storage (s : Storage) w : World M :=
  mkWorld s (heap w) (fs w) (slots w) (mapper w) (trace w).
Definition set_heap (h : gmap loc Dict) w : World M :=
  mkWorld (storage w) h (fs w) (slots w) (mapper w) (trace w).
Definition set_fs (f : gmap string Node) w : World M :=
  mkWorld (storage w) (heap w) f (slots w) (mapper w) (trace w).
Definition set_slots (s : gmap (Address * Z * Z) (option PyVal)) w : World M :=
  mkWorld (storage w) (heap w) (fs w) s (mapper w) (trace w).
Definition set_mapper (m : M) w : World M :=
  mkWorld (storage w) (heap w) (fs w) (slots w) m (trace w).
Definition set_trace (t : list Event) w : World M :=
  mkWorld (storage w) (heap w) (fs w) (slots w) (mapper w) t.
End Setters.

(** ** The monad of engine code *)

(** The outcome of a run: a value, a raised exception, or [Stuck] when the
    run dereferenced a reference that denotes no object (no Python run
    does). *)
Inductive Outcome (A : Type) :=
| Done (r : Result A)
| Stuck.
Arguments Done {A} r.
Arguments Stuck {A}.

Definition Eng (M : Type) : Type → Type := fun A => World M → Outcome A * World M.

Section Monad.
Context {M : Type}.

Definition ret {A} (a : A) : Eng M A := fun w => (Done (Ok a), w).

Definition bind {A B} (c : Eng M A) (k : A → Eng M B) : Eng M B := fun w =>
  match c w with
  | (Done (Ok a), w') => k a w'
  | (Done (Raise e), w') => (Done (Raise e), w')
  | (Stuck, w') => (Stuck, w')
  end.

Definition raise {A} (e : Exception) : Eng M A := fun w => (Done (Raise e), w).

Definition stuck {A} : Eng M A := fun w => (Stuck, w).

Definition gets {A} (f : World M → A) : Eng M A := fun w => (Done (Ok (f w)), w).

Definition modify (f : World M → World M) : Eng M unit := fun w => (Done (Ok tt), f w).

(** [try: c except FileExistsError: pass] *)
Definition except_FileExistsError_pass (c : Eng M unit) : Eng M unit := fun w =>
  match c w with
  | (Done (Raise (FileExistsError _)), w') => (Done (Ok tt), w')
  | r => r
  end.

(** Ghost: record a call in the trace. *)
Definition emit (e : Event) : Eng M unit :=
  modify (fun w => set_trace (trace w ++ [e]) w).
End Monad.

Declare Scope eng_scope.
Delimit Scope eng_scope with eng.
Notation "x <- c ;; k" := (bind c (fun x => k))
  (at level 100, c at next level, right associativity) : eng_scope.
Notation "c ;; k" := (bind c (fun _ => k))
  (at level 100, right associativity) : eng_scope.
#[local] Open Scope eng_scope.

(** ** The deploy storage *)

Module DeployStorage.
Section DeployStorage.
Context {M : Type}.

(** Modelled from the spec: the write [invoke] makes through
    [IconScoreDeployStorage.put_deploy_info_and_tx_params]. It writes the
    [TxDeployParams] of the transaction hash, once, and sets
    [next_tx_hash] of the address, creating its [DeployInfo] with the
    transaction origin as owner when there is none. *)
Definition put (a : Address) (t : DeployType) (o : Address) (h : bytes) (d : Dict)
    (s : Storage) : Storage :=
  mkStorage
    (match deploy_infos s !! a with
     | None => <[a := mkDeployInfo o None (Some h)]> (deploy_infos s)
     | Some i => <[a := mkDeployInfo (owner i) (current_tx_hash i) (Some h)]> (deploy_infos s)
     end)
    (match tx_records s !! h with
     | None => <[h := mkTxDeployRecord a t o d]> (tx_records s)
     | Some _ => tx_records s
     end).

(** Modelled from the spec: [put_deploy_info_and_tx_params] as a call, the
    write [put] on the storage of the world. *)
Definition put_deploy_info_and_tx_params (context : IconScoreContext)
    (a : Address) (t : DeployType) (o : Address) (h : bytes) (d : Dict) : Eng M unit :=
  modify (fun w => set_storage (put a t o h d (storage w)) w).

(** Modelled from the spec: [get_score_owner], the owner on record for
    the address, or [None]. *)
Definition get_score_owner (context : IconScoreContext) (a : Address) : Eng M (option Address) :=
  gets (fun w => owner <$> deploy_infos (storage w) !! a).

(** Modelled from the spec: [get_deploy_tx_params], the record of the
    transaction hash read back from the store, or [None]. Each read
    builds a new object: its dictionary is a new [dict]. *)
Definition get_deploy_tx_params (context : IconScoreContext) (h : bytes)
    : Eng M (option IconScoreDeployTXParams) := fun w =>
  match tx_records (storage w) !! h with
  | None => (Done (Ok None), w)
  | Some r =>
      let l := fresh (dom (heap w)) in
      (Done (Ok (Some (mkTXParams (rec_score_address r) (rec_deploy_type r) l))),
       set_heap (<[l := rec_data r]> (heap w)) w)
  end.

(** Modelled from the spec: [update_score_info] promotes
    [current_tx_hash] of the address to the transaction hash. An address
    with no [DeployInfo] is left without one. *)
Definition promote (a : Address) (h : bytes) (s : Storage) : Storage :=
  mkStorage
    (alter (fun i => mkDeployInfo (owner i) (Some h) (next_tx_hash i)) a (deploy_infos s))
    (tx_records s).

(** Modelled from the spec: [update_score_info] as a call, the promotion
    [promote] on the storage of the world. *)
Definition update_score_info (context : IconScoreContext) (a : Address) (h : bytes) : Eng M unit :=
  modify (fun w => set_storage (promote a h (storage w)) w).

(** Modelled from the spec: [get_deploy_info], the [DeployInfo] of the
    address, or [None]. *)
Definition get_deploy_info (context : IconScoreContext) (a : Address) : Eng M (option DeployInfo) :=
  gets (fun w => deploy_infos (storage w) !! a).
End DeployStorage.
End DeployStorage.

(** ** The deployer *)

Module IconScoreDeployer.
Section IconScoreDeployer.
Context {M : Type}.

(** Modelled from the spec: [IconScoreDeployer.deploy] (the spec's
    ContentMaterializer) writes the content into the slot keyed by
    (address, block height, transaction index); a slot that exists is
    left as it is. *)
Definition deploy (address : Address) (data : option PyVal) (block_height transaction_index : Z)
    : Eng M unit :=
  emit (EvDeployerDeploy address data block_height transaction_index) ;;
  modify (fun w =>
    match slots w !! (address, block_height, transaction_index) with
    | Some _ => w
    | None => set_slots (<[(address, block_height, transaction_index) := data]> (slots w)) w
    end).
End IconScoreDeployer.
End IconScoreDeployer.

(** ** The file system calls of [os] *)

Module os.

(** [os.path.isdir]: a directory, or a link that leads to one. The
    kernel follows at most 40 links. *)
Fixpoint isdir_fuel (n : nat) (f : gmap string Node) (p : string) : bool :=
  match f !! p with
  | Some Directory => true
  | Some File => false
  | Some (Symlink src) =>
      match n with
      | O => false
      | S n' => isdir_fuel n' f src
      end
  | None => false
  end.

Definition isdir := isdir_fuel 40.

(** What a path leads to once links are followed. *)
Inductive Kind := KDir | KFile | KMissing | KLoop.

Fixpoint kind_fuel (n : nat) (f : gmap string Node) (p : string) : Kind :=
  match f !! p with
  | Some Directory => KDir
  | Some File => KFile
  | Some (Symlink src) =>
      match n with
      | O => KLoop
      | S n' => kind_fuel n' f src
      end
  | None => KMissing
  end.

Definition kind := kind_fuel 40.

Fixpoint has_nul (s : string) : bool :=
  match s with
  | EmptyString => false
  | String c s' => bool_decide (c = "000"%char) || has_nul s'
  end.

(** The length of a [str] path once encoded for the file system: a
    character above 127 takes two bytes. *)
Fixpoint encoded_length (s : string) : nat :=
  match s with
  | EmptyString => O
  | String c s' => ((if (N_of_ascii c <? 128)%N then 1 else 2) + encoded_length s')%nat
  end.

Definition PATH_MAX : nat := 4096.

(** What every call refuses in a path: an embedded NUL is a [ValueError],
    a path of [PATH_MAX] bytes or more is ENAMETOOLONG. *)
Definition path_error (p : string) : option Exception :=
  if has_nul p then Some ValueError
  else if (PATH_MAX <=? encoded_length p)%nat then Some (OSError "ENAMETOOLONG")
  else None.

(** The ancestors of a path, the highest first: its prefixes that end
    before a separator. The root is not among them. *)
Fixpoint prefixes (pre s : string) : list string :=
  match s with
  | EmptyString => []
  | String c s' =>
      (if bool_decide (c = "/"%char) && negb (bool_decide (pre = "")) then [pre] else [])
      ++ prefixes (pre +:+ String c "") s'
  end.

Definition ancestors (p : string) : list string := prefixes "" p.

(** [os.makedirs] at an ancestor: one that is absent is made; one that is
    there has to lead to a directory, or making what lies below fails. *)
Definition mkdir_ancestor (f : gmap string Node) (q : string)
    : option Exception * gmap string Node :=
  match path_error q with
  | Some e => (Some e, f)
  | None =>
      match f !! q with
      | None => (None, <[q := Directory]> f)
      | Some _ =>
          match kind f q with
          | KDir => (None, f)
          | KFile => (Some NotADirectoryError, f)
          | KMissing => (Some FileNotFoundError, f)
          | KLoop => (Some (OSError "ELOOP"), f)
          end
      end
  end.

(** [os.makedirs] at the path itself, with [exist_ok=True]. *)
Definition mkdir_leaf (f : gmap string Node) (p : string)
    : option Exception * gmap string Node :=
  match path_error p with
  | Some e => (Some e, f)
  | None =>
      match f !! p with
      | None => (None, <[p := Directory]> f)
      | Some _ => if isdir f p then (None, f) else (Some (FileExistsError p), f)
      end
  end.

Fixpoint mkdirs_along (f : gmap string Node) (qs : list string) (p : string)
    : option Exception * gmap string Node :=
  match qs with
  | [] => mkdir_leaf f p
  | q :: qs' =>
      match mkdir_ancestor f q with
      | (Some e, f') => (Some e, f')
      | (None, f') => mkdirs_along f' qs' p
      end
  end.

(** [os.makedirs(p, exist_ok=True)] on the entries: the exception, if
    any, and the entries it leaves. *)
Definition mkdirs (f : gmap string Node) (p : string)
    : option Exception * gmap string Node :=
  mkdirs_along f (ancestors p) p.

(** The path an argument of an [os] call denotes; [None] when it is
    neither a [str] nor a [bytes]. *)
Definition fspath (v : option PyVal) : option string :=
  match v with
  | Some (VStr s) => Some s
  | Some (VBytes b) => Some (string_of_list_byte b)
  | _ => None
  end.

(** The length in bytes of a path argument. *)
Definition fs_length (v : option PyVal) : nat :=
  match v with
  | Some (VStr s) => encoded_length s
  | Some (VBytes b) => length b
  | _ => O
  end.

(** What [os.symlink] refuses in its source before it looks at the
    destination: an embedded NUL, the empty path, a path too long. *)
Definition source_error (src : option PyVal) (s : string) : option Exception :=
  if has_nul s then Some ValueError
  else if bool_decide (s = "") then Some FileNotFoundError
  else if (PATH_MAX <=? fs_length src)%nat then Some (OSError "ENAMETOOLONG")
  else None.

(** What [os.symlink] refuses before it looks at the file system. *)
Definition symlink_error (src : option PyVal) (dst : string) : option Exception :=
  match fspath src with
  | None => Some TypeError
  | Some s =>
      if has_nul s || has_nul dst then Some ValueError
      else
        match source_error src s with
        | Some e => Some e
        | None => path_error dst
        end
  end.

#[global] Arguments mkdirs : simpl never.
#[global] Arguments path_error : simpl never.
#[global] Arguments source_error : simpl never.
#[global] Arguments PATH_MAX : simpl never.
#[global] Arguments symlink_error : simpl never.

Section os.
Context {M : Type}.

(** [os.makedirs(p, exist_ok=True)] *)
Definition makedirs (p : string) : Eng M unit := fun w =>
  match mkdirs (fs w) p with
  | (None, f) => (Done (Ok tt), set_fs f w)
  | (Some e, f) => (Done (Raise e), set_fs f w)
  end.

(** [os.symlink(src, dst, target_is_directory=True)]; [src] is whatever
    the caller holds, and is a path once [symlink_error] has let it
    through. The engine calls it for a destination right below a
    directory it has just made. *)
Definition symlink (src : option PyVal) (dst : string) : Eng M unit := fun w =>
  match symlink_error src dst with
  | Some e => (Done (Raise e), w)
  | None =>
      match fs w !! dst with
      | Some _ => (Done (Raise (FileExistsError dst)), w)
      | None =>
          (Done (Ok tt), set_fs (<[dst := Symlink (default "" (fspath src))]> (fs w)) w)
      end
  end.
End os.
End os.

(** ** Collaborators taken as an interface *)

(** The annotations of a method: parameter names and their type names. *)
Abbreviation Annotations := (list (string * string)).

(** The classes the engine calls and whose behaviour it does not fix:
    [IconBuiltinScoreLoader], [Address.to_bytes], the SCORE mapper
    ([IconScoreInfoMapper], with state [M]), [TypeConverter], and the
    contract's own lifecycle methods. The mapper may consult the whole
    world when it resolves an instance; it writes its own state only.
    [convert_data_params] works on the dictionary it is handed, in place:
    it answers the exception it raised, if any, and the contents it left
    in the dictionary. *)
Record Externals (M : Type) := mkExternals {
  is_builtin_score : Address → bool;
  to_bytes : Address → bytes;
  score_root_path : M → string;
  is_exist_db : Address → M → bool;
  delete_icon_score : Address → M → M;
  get_icon_score : IconScoreContext → Address → World M → option IconScoreBase * M;
  make_annotations_from_method : Method → Annotations;
  convert_data_params : Annotations → PyVal → option Foreign * PyVal;
  call : Method → list (string * PyVal) → World M → option Foreign
}.
Arguments is_builtin_score {M}.
Arguments to_bytes {M}.
Arguments score_root_path {M}.
Arguments is_exist_db {M}.
Arguments delete_icon_score {M}.
Arguments get_icon_score {M}.
Arguments make_annotations_from_method {M}.
Arguments convert_data_params {M}.
Arguments call {M}.

(** ** Dictionary objects on the heap *)

Section Dicts.
Context {M : Type}.

(** [data.get(k)] *)
Definition dict_get (data : loc) (k : string) : Eng M (option PyVal) := fun w =>
  match heap w !! data with
  | Some d => (Done (Ok (d !! k)), w)
  | None => (Stuck, w)
  end.

(** [data[k]] *)
Definition dict_getitem (data : loc) (k : string) : Eng M PyVal :=
  v <- dict_get data k ;;
  match v with
  | Some v => ret v
  | None => raise (KeyError k)
  end.

(** [data[k] = v] *)
Definition dict_setitem (data : loc) (k : string) (v : PyVal) : Eng M unit := fun w =>
  match heap w !! data with
  | Some d => (Done (Ok tt), set_heap (<[data := <[k := v]> d]> (heap w)) w)
  | None => (Stuck, w)
  end.

(** [bytes.fromhex(v[2:])]: a [str] is sliced and decoded, a [bytes] is
    sliced and refused by [fromhex], an [int] and a [dict] are not
    sliceable. *)
Definition fromhex_from_2 (v : PyVal) : Eng M bytes :=
  match v with
  | VStr s =>
      match fromhex (drop_str 2 s) with
      | Some b => ret b
      | None => raise ValueError
      end
  | VBytes _ => raise TypeError
  | VInt _ => raise TypeError
  | VDict _ => raise TypeError
  end.
End Dicts.

(** ** The engine *)

Module Flag.
Definition NONE : Z := 0.
Definition ENABLE_DEPLOY_AUDIT : Z := 1.
End Flag.

(** The attribute of the engine that [open] sets and the claims read. Its
    storage, mapper and deployer are the components of the world. *)
Record IconScoreDeployEngine := mkEngine { _flags : Z }.

Module Engine.
Section Engine.
Context {M : Type} (X : Externals M) (self : IconScoreDeployEngine).

Definition _is_flag_on (flag : Z) : bool :=
  (Z.land (_flags self) flag =? flag)%Z.

(** [params] is the dictionary object the caller holds. When it is the
    one stored under 'params' in the calldata ([held_in] is that
    calldata), what the converter writes into it shows there: the result
    of [convert_data_params] is dropped and the hook is called on the
    same object. *)
Definition _initialize_score (context : IconScoreContext) (on_deploy : Method)
    (held_in : option loc) (params : PyVal) : Eng M unit :=
  let annotations := make_annotations_from_method X on_deploy in
  match params with
  | VDict _ =>
      let '(exc, converted) := convert_data_params X annotations params in
      match held_in with
      | Some data => dict_setitem data "params" converted
      | None => ret tt
      end ;;
      match exc with
      | Some e => raise (Propagated e)
      | None =>
          match converted with
          | VDict kwargs =>
              emit (EvCall on_deploy kwargs) ;;
              r <- gets (call X on_deploy kwargs) ;;
              match r with
              | Some e => raise (Propagated e)
              | None => ret tt
              end
          | _ => raise TypeError
          end
      end
  | _ =>
      match fst (convert_data_params X annotations params) with
      | Some e => raise (Propagated e)
      | None => raise TypeError
      end
  end.

Definition mapper_get_icon_score (context : IconScoreContext) (a : Address)
    : Eng M (option IconScoreBase) := fun w =>
  let '(score, m) := get_icon_score X context a w in
  (Done (Ok score), set_mapper m w).

Definition _on_deploy (context : IconScoreContext) (deploy_state : DeployType)
    (icon_score_address : Address) (data : loc) : Eng M unit :=
  content_type <- dict_get data "contentType" ;;
  content <- dict_get data "content" ;;
  params_opt <- dict_get data "params" ;;
  let params := default (VDict []) params_opt in
  let held_in := match params_opt with Some _ => Some data | None => None end in
  (if eq_str content_type "application/tbears" then
     modify (fun w => set_mapper (delete_icon_score X icon_score_address (mapper w)) w) ;;
     score_root_path <- gets (fun w => score_root_path X (mapper w)) ;;
     let target_path := path_join score_root_path (hex (to_bytes X icon_score_address)) in
     os.makedirs target_path ;;
     let target_path :=
       path_join target_path (version_name (height (block context)) (index (tx context))) in
     except_FileExistsError_pass (os.symlink content target_path)
   else ret tt) ;;
  IconScoreDeployer.deploy icon_score_address content
    (height (block context)) (index (tx context)) ;;
  db_exist <- gets (fun w => is_exist_db X icon_score_address (mapper w)) ;;
  score <- mapper_get_icon_score context icon_score_address ;;
  match score with
  | None => raise (InvalidParamsException (MsgAddr "score is None : " icon_score_address))
  | Some score =>
      let on_deploy :=
        match deploy_state with
        | INSTALL => on_install score
        | UPDATE => on_update score
        end in
      if negb db_exist then _initialize_score context on_deploy held_in params
      else ret tt
  end.

Definition _on_deploy_for_builtin (context : IconScoreContext)
    (icon_score_address : Address) (src_score_path : string) : Eng M unit :=
  score_root_path <- gets (fun w => score_root_path X (mapper w)) ;;
  let target_path := path_join score_root_path (hex (to_bytes X icon_score_address)) in
  os.makedirs target_path ;;
  let target_path := path_join target_path (version_name 0 0) in
  except_FileExistsError_pass (os.symlink (Some (VStr src_score_path)) target_path) ;;
  is_exist_db <- gets (fun w => is_exist_db X icon_score_address (mapper w)) ;;
  score <- mapper_get_icon_score context icon_score_address ;;
  match score with
  | None => raise (InvalidParamsException (MsgAddr "score is None : " icon_score_address))
  | Some score =>
      if negb is_exist_db then _initialize_score context (on_install score) None (VDict [])
      else ret tt
  end.

Definition _score_deploy_for_builtin (context : IconScoreContext)
    (icon_score_address : Address) (src_score_path : string) : Eng M unit :=
  _on_deploy_for_builtin context icon_score_address src_score_path.

Definition deploy_for_builtin (context : IconScoreContext)
    (score_address : Address) (src_score_path : string) : Eng M unit :=
  _score_deploy_for_builtin context score_address src_score_path.

Definition _score_deploy (context : IconScoreContext) (deploy_state : DeployType)
    (icon_score_address : Address) (data : loc) : Eng M unit :=
  content_type <- dict_get data "contentType" ;;
  (if eq_str content_type "application/tbears" then ret tt
   else if eq_str content_type "application/zip" then
     content <- dict_getitem data "content" ;;
     decoded <- fromhex_from_2 content ;;
     dict_setitem data "content" (VBytes decoded)
   else raise (InvalidParamsException (MsgVal "Invalid contentType: " content_type))) ;;
  _on_deploy context deploy_state icon_score_address data.

Definition deploy (context : IconScoreContext) (tx_hash : bytes) : Eng M unit :=
  emit (EvDeploy tx_hash) ;;
  tx_params <- DeployStorage.get_deploy_tx_params context tx_hash ;;
  match tx_params with
  | None => raise (InvalidParamsException (MsgHash "tx_params is None : " tx_hash))
  | Some tx_params =>
      let score_address := score_address tx_params in
      DeployStorage.update_score_info context score_address tx_hash ;;
      deploy_info <- DeployStorage.get_deploy_info context score_address ;;
      match deploy_info with
      | None => raise (InvalidParamsException (MsgAddr "deploy_info is None : " score_address))
      | Some _ =>
          _score_deploy context (deploy_state tx_params) score_address (deploy_data tx_params)
      end
  end.

Definition write_deploy_info_and_tx_params (context : IconScoreContext)
    (deploy_state : DeployType) (icon_score_address : Address) (data : Dict) : Eng M unit :=
  DeployStorage.put_deploy_info_and_tx_params context icon_score_address deploy_state
    (origin (tx context)) (hash (tx context)) data.

Definition _check_audit_ignore (context : IconScoreContext) (icon_score_address : Address)
    : Eng M bool :=
  let is_built_score := is_builtin_score X icon_score_address in
  score_owner <- DeployStorage.get_score_owner context icon_score_address ;;
  let is_owner := bool_decide (Some (origin (tx context)) = score_owner) in
  let is_enable_audit := _is_flag_on Flag.ENABLE_DEPLOY_AUDIT in
  ret (negb is_enable_audit || (is_built_score && is_owner)).

(** [except BaseException as e: Logger.exception(e); raise e]: the
    exception is logged and raised again. *)
Definition except_log_raise {A} (c : Eng M A) : Eng M A := fun w =>
  match c w with
  | (Done (Raise e), w') => (Done (Raise e), w')
  | r => r
  end.

(** The calldata [data] is only read on this path (the storage keeps its
    value), so it is passed by value. *)
Definition invoke (context : IconScoreContext) (to icon_score_address : Address)
    (data : Dict) : Eng M unit :=
  let deploy_state := if bool_decide (to = ZERO_SCORE_ADDRESS) then INSTALL else UPDATE in
  except_log_raise (
    write_deploy_info_and_tx_params context deploy_state icon_score_address data ;;
    audit_ignore <- _check_audit_ignore context icon_score_address ;;
    if audit_ignore then deploy context (hash (tx context)) else ret tt).

Definition commit (context : IconScoreContext) : Eng M unit := ret tt.

Definition rollback : Eng M unit := ret tt.
End Engine.
End Engine.

(** ** Frame and trace lemmas *)

Section Frames.
Context {M : Type}.

(** [c] leaves the component [f] of the world as it finds it, whatever
    the outcome. *)
Definition preserves {A B} (f : World M → B) (c : Eng M A) : Prop :=
  ∀ w, f (snd (c w)) = f w.

(** [c] only adds to the trace. *)
Definition extends {A} (c : Eng M A) : Prop :=
  ∀ w, ∃ evs, trace (snd (c w)) = trace w ++ evs.

Lemma preserves_ret {A B} (f : World M → B) (a : A) : preserves f (ret a).
Proof. intros w. reflexivity. Qed.

Lemma preserves_raise {A B} (f : World M → B) e : preserves f (raise (A:=A) e).
Proof. intros w. reflexivity. Qed.

Lemma preserves_gets {A B} (f : World M → B) (g : World M → A) : preserves f (gets g).
Proof. intros w. reflexivity. Qed.

Lemma preserves_bind {A B C} (f : World M → C) (c : Eng M A) (k : A → Eng M B) :
  preserves f c → (∀ a, preserves f (k a)) → preserves f (bind c k).
Proof.
  intros Hc Hk w. unfold bind. specialize (Hc w).
  destruct (c w) as [[[a|e]|] w']; simpl in *; try assumption.
  rewrite Hk. assumption.
Qed.

Lemma preserves_modify {B} (f : World M → B) (g : World M → World M) :
  (∀ w, f (g w) = f w) → preserves f (modify g).
Proof. intros H w. apply H. Qed.

Lemma preserves_except {B} (f : World M → B) (c : Eng M unit) :
  preserves f c → preserves f (except_FileExistsError_pass c).
Proof.
  intros Hc w. unfold except_FileExistsError_pass. specialize (Hc w).
  destruct (c w) as [[[a|[]]|] w']; assumption.
Qed.

Lemma extends_ret {A} (a : A) : extends (ret a).
Proof. intros w. exists []. simpl. by rewrite app_nil_r. Qed.

Lemma extends_raise {A} e : extends (raise (A:=A) e).
Proof. intros w. exists []. simpl. by rewrite app_nil_r. Qed.

Lemma extends_preserves {A} (c : Eng M A) : preserves trace c → extends c.
Proof. intros H w. exists []. rewrite H. by rewrite app_nil_r. Qed.

Lemma extends_emit e : extends (emit e).
Proof. intros w. by exists [e]. Qed.

Lemma extends_bind {A B} (c : Eng M A) (k : A → Eng M B) :
  extends c → (∀ a, extends (k a)) → extends (bind c k).
Proof.
  intros Hc Hk w. unfold bind. destruct (Hc w) as [evs Hevs].
  destruct (c w) as [[[a|e]|] w']; simpl in *; eauto.
  destruct (Hk a w') as [evs' Hevs']. exists (evs ++ evs').
  rewrite Hevs', Hevs. by rewrite app_assoc.
Qed.

Lemma extends_except (c : Eng M unit) :
  extends c → extends (except_FileExistsError_pass c).
Proof.
  intros Hc w. unfold except_FileExistsError_pass. specialize (Hc w).
  destruct (c w) as [[[a|[]]|] w']; assumption.
Qed.

(** The storage calls, the [os] calls, the deployer and the dictionary
    accesses, one component at a time. *)

Lemma makedirs_preserves {B} (f : World M → B) p :
  (∀ g w, f (set_fs g w) = f w) → preserves f (os.makedirs p).
Proof.
  intros H w. unfold os.makedirs.
  destruct (os.mkdirs (fs w) p) as [[e|] g]; simpl; auto.
Qed.

Lemma symlink_preserves {B} (f : World M → B) src dst :
  (∀ g w, f (set_fs g w) = f w) → preserves f (os.symlink src dst).
Proof.
  intros H w. unfold os.symlink. repeat case_match; simpl; auto.
Qed.

Lemma dict_get_preserves {B} (f : World M → B) l k : preserves f (dict_get l k).
Proof. intros w. unfold dict_get. by destruct (heap w !! l). Qed.

Lemma dict_getitem_preserves {B} (f : World M → B) l k : preserves f (dict_getitem l k).
Proof.
  apply preserves_bind; [apply dict_get_preserves|].
  intros [v|]; [apply preserves_ret | apply preserves_raise].
Qed.

Lemma dict_setitem_preserves {B} (f : World M → B) l k v :
  (∀ h w, f (set_heap h w) = f w) → preserves f (dict_setitem l k v).
Proof. intros H w. unfold dict_setitem. destruct (heap w !! l); simpl; auto. Qed.

Lemma fromhex_from_2_preserves {B} (f : World M → B) v : preserves f (fromhex_from_2 v).
Proof.
  destruct v as [s| | |]; simpl; try apply preserves_raise.
  destruct (fromhex _); [apply preserves_ret | apply preserves_raise].
Qed.

Lemma deployer_deploy_preserves {B} (f : World M → B) a d h i :
  (∀ s w, f (set_slots s w) = f w) → (∀ t w, f (set_trace t w) = f w) →
  preserves f (IconScoreDeployer.deploy a d h i).
Proof.
  intros H1 H2 w. unfold IconScoreDeployer.deploy, bind, emit, modify. simpl.
  destruct (slots w !! _); simpl; rewrite ?H1, ?H2; auto.
Qed.

Lemma deployer_deploy_trace a d h i (w : World M) :
  trace (snd (IconScoreDeployer.deploy a d h i w)) = trace w ++ [EvDeployerDeploy a d h i].
Proof.
  unfold IconScoreDeployer.deploy, bind, emit, modify. simpl.
  by destruct (slots w !! _).
Qed.
End Frames.

(** Splits a frame or trace goal along the structure of the code. *)
Ltac frame_step :=
  lazymatch goal with
  | |- preserves _ (ret _) => apply preserves_ret
  | |- preserves _ (raise _) => apply preserves_raise
  | |- preserves _ (gets _) => apply preserves_gets
  | |- preserves _ (bind _ _) => apply preserves_bind
  | |- preserves _ (except_FileExistsError_pass _) => apply preserves_except
  | |- preserves _ (dict_get _ _) => apply dict_get_preserves
  | |- preserves _ (dict_getitem _ _) => apply dict_getitem_preserves
  | |- preserves _ (fromhex_from_2 _) => apply fromhex_from_2_preserves
  | |- preserves _ (match ?x with _ => _ end) => destruct x
  | |- extends (ret _) => apply extends_ret
  | |- extends (raise _) => apply extends_raise
  | |- extends (emit _) => apply extends_emit
  | |- extends (bind _ _) => apply extends_bind
  | |- extends (except_FileExistsError_pass _) => apply extends_except
  | |- extends (match ?x with _ => _ end) => destruct x
  | |- preserves _ _ => fail
  | |- extends _ => fail
  | |- ∀ _, _ => intro
  end.

Ltac frame := cbv zeta; repeat (frame_step; cbv zeta).

Section EngineFrames.
Context {M : Type} (X : Externals M) (self : IconScoreDeployEngine).

(** A component of the world that is none of mapper, file system, slots,
    trace and heap. *)
Definition untouched_by_on_deploy {B} (f : World M → B) : Prop :=
  (∀ m w, f (set_mapper m w) = f w) ∧ (∀ g w, f (set_fs g w) = f w) ∧
  (∀ s w, f (set_slots s w) = f w) ∧ (∀ t w, f (set_trace t w) = f w) ∧
  (∀ h w, f (set_heap h w) = f w).

Lemma storage_untouched : untouched_by_on_deploy storage.
Proof. repeat split. Qed.

Lemma mapper_get_icon_score_preserves {B} (f : World M → B) context a :
  (∀ m w, f (set_mapper m w) = f w) → preserves f (Engine.mapper_get_icon_score X context a).
Proof.
  intros H w. unfold Engine.mapper_get_icon_score.
  destruct (get_icon_score X context a w). simpl. auto.
Qed.

Lemma _initialize_score_preserves {B} (f : World M → B) context m held p :
  (∀ t w, f (set_trace t w) = f w) → (∀ h w, f (set_heap h w) = f w) →
  preserves f (Engine._initialize_score X context m held p).
Proof.
  intros Ht Hh. unfold Engine._initialize_score. cbv zeta.
  destruct p; try (destruct (fst _); frame).
  destruct (convert_data_params _ _ _) as [exc converted].
  frame; auto using dict_setitem_preserves, preserves_modify.
  apply preserves_modify. auto.
Qed.

(** Without a calldata dictionary to write to, the heap is left alone. *)
Lemma _initialize_score_fresh_preserves {B} (f : World M → B) context m p :
  (∀ t w, f (set_trace t w) = f w) →
  preserves f (Engine._initialize_score X context m None p).
Proof.
  intros Ht. unfold Engine._initialize_score. cbv zeta.
  destruct p; try (destruct (fst _); frame).
  destruct (convert_data_params _ _ _) as [exc converted].
  frame; auto using preserves_modify.
  apply preserves_modify. auto.
Qed.

Lemma _on_deploy_preserves {B} (f : World M → B) context t a l :
  untouched_by_on_deploy f → preserves f (Engine._on_deploy X context t a l).
Proof.
  intros (Hm & Hf & Hs & Ht & Hh). unfold Engine._on_deploy. frame;
    auto using preserves_modify, makedirs_preserves, symlink_preserves, deployer_deploy_preserves,
      mapper_get_icon_score_preserves, _initialize_score_preserves.
Qed.

Lemma _score_deploy_preserves_storage context t a l :
  preserves storage (Engine._score_deploy X context t a l).
Proof.
  unfold Engine._score_deploy. frame;
    auto using dict_setitem_preserves, _on_deploy_preserves, storage_untouched.
Qed.

Lemma _initialize_score_extends context m held p :
  extends (Engine._initialize_score X context m held p).
Proof.
  unfold Engine._initialize_score. cbv zeta.
  destruct p; try (destruct (fst _); frame).
  destruct (convert_data_params _ _ _) as [exc converted].
  frame;
    try solve [apply extends_preserves; frame; auto using dict_setitem_preserves].
Qed.

Lemma _on_deploy_extends context t a l : extends (Engine._on_deploy X context t a l).
Proof.
  unfold Engine._on_deploy. frame;
    try solve
      [ apply extends_preserves; frame;
        auto using preserves_modify, makedirs_preserves, symlink_preserves,
          mapper_get_icon_score_preserves
      | apply _initialize_score_extends ].
  intros w. eexists. apply deployer_deploy_trace.
Qed.

Lemma _score_deploy_extends context t a l : extends (Engine._score_deploy X context t a l).
Proof.
  unfold Engine._score_deploy. frame;
    try solve
      [ apply extends_preserves; frame; auto using dict_setitem_preserves
      | apply _on_deploy_extends ].
Qed.
End EngineFrames.

(** ** A concrete set of collaborators *)

Module Sample.
(** A mapper whose state is the set of addresses that have a database.
    It resolves every address but [broken], and the database of an
    address exists from the first resolution on. *)
Definition broken : Address := mkAddress CONTRACT (replicate 20 xff).
Definition governance : Address := mkAddress CONTRACT (replicate 19 x00 ++ [x01]).
Definition alice : Address := mkAddress EOA (replicate 20 x0a).
Definition bob : Address := mkAddress EOA (replicate 20 x0b).
Definition token : Address := mkAddress CONTRACT (replicate 20 x77).

Definition X : Externals (gset Address) := {|
  is_builtin_score a := bool_decide (a = governance);
  to_bytes a := match prefix a with CONTRACT => x01 :: body a | EOA => body a end;
  score_root_path _ := "/score";
  is_exist_db a m := bool_decide (a ∈ m);
  delete_icon_score a m := m;
  get_icon_score context a w :=
    if bool_decide (a = broken) then (None, mapper w)
    else (Some (Instance 1), {[a]} ∪ mapper w);
  make_annotations_from_method _ := [];
  convert_data_params _ p := (None, p);
  call _ _ _ := None
|}.

Definition audit_on : IconScoreDeployEngine := mkEngine Flag.ENABLE_DEPLOY_AUDIT.
Definition audit_off : IconScoreDeployEngine := mkEngine Flag.NONE.

Definition empty_world : World (gset Address) :=
  mkWorld (mkStorage ∅ ∅) ∅ ∅ ∅ ∅ [].

Definition tx1 : bytes := [x01; x01].
Definition tx2 : bytes := [x02; x02].

Definition context1 (sender : Address) (h : bytes) : IconScoreContext :=
  mkContext (mkTransaction sender h 3) (mkBlock 12).

Definition zip_data : Dict :=
  <["contentType" := VStr "application/zip"]> (<["content" := VStr "0x1234"]> ∅).

Definition text_data : Dict :=
  <["contentType" := VStr "text/plain"]> (<["content" := VStr "0x1234"]> ∅).
End Sample.

Example invoke_audit_off_trace :
  trace (snd (Engine.invoke Sample.X Sample.audit_off (Sample.context1 Sample.alice Sample.tx1)
                ZERO_SCORE_ADDRESS Sample.token Sample.zip_data Sample.empty_world))
  = [EvDeploy Sample.tx1;
     EvDeployerDeploy Sample.token (Some (VBytes [x12; x34])) 12 3;
     EvCall (on_install (Instance 1)) []].
Proof. vm_compute. reflexivity. Qed.

Example invoke_audit_on_trace :
  trace (snd (Engine.invoke Sample.X Sample.audit_on (Sample.context1 Sample.alice Sample.tx1)
                ZERO_SCORE_ADDRESS Sample.token Sample.zip_data Sample.empty_world))
  = [].
Proof. vm_compute. reflexivity. Qed.

(** ** The audit gate of [invoke] *)

Section Invoke.
Context {M : Type} (X : Externals M) (self : IconScoreDeployEngine).

Lemma land_1_testbit (z : Z) : (Z.land z 1 =? 1)%Z = Z.testbit z 0.
Proof.
  change 1 with (Z.ones 1) at 1. rewrite Z.land_ones by lia.
  rewrite Z.bit0_odd. change (2 ^ 1) with 2. rewrite Zmod_odd.
  by destruct (Z.odd z).
Qed.

(** The flag is on exactly when bit 0 of the flags is set. *)
Lemma _is_flag_on_audit :
  Engine._is_flag_on self Flag.ENABLE_DEPLOY_AUDIT = Z.testbit (_flags self) 0.
Proof. apply land_1_testbit. Qed.

Lemma deploy_trace context h (w : World M) :
  ∃ evs, trace (snd (Engine.deploy X context h w)) = trace w ++ EvDeploy h :: evs.
Proof.
  unfold Engine.deploy.
  assert (∀ k : unit → Eng M unit, (∀ u, extends (k u)) →
    ∃ evs, trace (snd (bind (emit (EvDeploy h)) k w)) = trace w ++ EvDeploy h :: evs) as H.
  { intros k Hk. unfold bind, emit, modify. simpl.
    destruct (Hk tt (set_trace (trace w ++ [EvDeploy h]) w)) as [evs Hevs].
    exists evs. rewrite Hevs. simpl. by rewrite <- app_assoc. }
  apply H. intros _. frame;
    try solve [ apply extends_preserves; frame; auto using preserves_modify
              | apply _score_deploy_extends ].
  - intros w0. unfold DeployStorage.get_deploy_tx_params.
    exists []. rewrite app_nil_r. by destruct (tx_records (storage w0) !! h).
  - apply extends_preserves, preserves_modify. reflexivity.
  - apply extends_preserves, preserves_gets.
Qed.
End Invoke.

Section InvokeGate.
Context {M : Type} (X : Externals M) (self : IconScoreDeployEngine).

(** The world once [write_deploy_info_and_tx_params] has run. *)
Definition written (context : IconScoreContext) (to a : Address) (data : Dict)
    (w : World M) : World M :=
  set_storage
    (DeployStorage.put a (if bool_decide (to = ZERO_SCORE_ADDRESS) then INSTALL else UPDATE)
       (origin (tx context)) (hash (tx context)) data (storage w)) w.

(** The audit-bypass predicate: auditing is off (bit 0 of the flags is
    clear), or the address is built in and the transaction origin is the
    owner the deploy storage has on record for it. *)
Definition bypass (context : IconScoreContext) (a : Address) (w : World M) : bool :=
  negb (Z.testbit (_flags self) 0)
  || (is_builtin_score X a
      && bool_decide (Some (origin (tx context)) = owner <$> deploy_infos (storage w) !! a)).

Lemma invoke_unfold context to a data (w : World M) :
  Engine.invoke X self context to a data w =
  let w1 := written context to a data w in
  if bypass context a w1 then Engine.deploy X context (hash (tx context)) w1
  else (Done (Ok tt), w1).
Proof.
  unfold Engine.invoke, Engine.except_log_raise, Engine.write_deploy_info_and_tx_params,
    DeployStorage.put_deploy_info_and_tx_params, Engine._check_audit_ignore,
    DeployStorage.get_score_owner, bypass.
  rewrite _is_flag_on_audit. unfold bind, modify, gets, ret. simpl.
  fold (written context to a data w).
  set (w1 := written context to a data w).
  destruct (negb _ || _); [|reflexivity].
  by destruct (Engine.deploy X context (hash (tx context)) w1) as [[[u|e]|] w2].
Qed.

(** C1. Once [invoke] has written the deploy info and the transaction
    params, it calls [deploy(context, context.tx.hash)] in the same
    invocation if and only if the ENABLE_DEPLOY_AUDIT flag is off, or the
    address is a built-in score address and [context.tx.origin] is the
    owner on record for it; otherwise it returns and the deployment stays
    pending ([next_tx_hash] of the address is the hash, nothing else is
    done). *)
Theorem C1_invoke_deploys_iff_audit_ignored context to a data (w : World M) :
  let h := hash (tx context) in
  let w1 := written context to a data w in
  let out := Engine.invoke X self context to a data w in
  (∃ evs, trace (snd out) = trace w ++ evs ∧ (EvDeploy h ∈ evs ↔ bypass context a w1 = true))
  ∧ (bypass context a w1 = true → out = Engine.deploy X context h w1)
  ∧ (bypass context a w1 = false →
       out = (Done (Ok tt), w1)
       ∧ next_tx_hash <$> deploy_infos (storage w1) !! a = Some (Some h)).
Proof.
  cbv zeta. rewrite invoke_unfold. cbv zeta.
  set (w1 := written context to a data w).
  assert (trace w1 = trace w) as Ht by reflexivity.
  destruct (bypass context a w1) eqn:Hb.
  - split; [|split; [done | discriminate]].
    destruct (deploy_trace X context (hash (tx context)) w1) as [evs Hevs].
    exists (EvDeploy (hash (tx context)) :: evs). rewrite Hevs, Ht.
    split; [done|]. split; [done|]. intros _. apply list_elem_of_here.
  - split; [|split; [discriminate|]].
    + exists []. simpl. rewrite app_nil_r. split; [done|].
      split; [|discriminate]. intros H. by apply not_elem_of_nil in H.
    + intros _. split; [done|].
      unfold w1, written, DeployStorage.put. simpl.
      destruct (deploy_infos (storage w) !! a); by rewrite lookup_insert_eq.
Qed.
End InvokeGate.

(** ** The lifecycle hook is called at most once *)

(** The lifecycle calls of a trace, in order. *)
Definition hook_calls (t : list Event) : list (Method * list (string * PyVal)) :=
  omap (fun e => match e with EvCall m kw => Some (m, kw) | _ => None end) t.

Lemma hook_calls_app t1 t2 : hook_calls (t1 ++ t2) = hook_calls t1 ++ hook_calls t2.
Proof. apply omap_app. Qed.

(** Unfolds the monad and the calls of the engine's collaborators. *)
Ltac eng_unfold :=
  unfold bind, ret, raise, gets, modify, emit, stuck, except_FileExistsError_pass,
    dict_get, dict_getitem, dict_setitem, fromhex_from_2,
    os.makedirs, os.symlink, IconScoreDeployer.deploy, Engine.mapper_get_icon_score,
    DeployStorage.get_deploy_tx_params, DeployStorage.update_score_info,
    DeployStorage.get_deploy_info, DeployStorage.get_score_owner,
    DeployStorage.put_deploy_info_and_tx_params in *.

Section Hooks.
Context {M : Type} (X : Externals M) (self : IconScoreDeployEngine).

(** The mapper as [_on_deploy] finds it when it asks [is_exist_db]: in
    tbears mode [delete_icon_score] has run. *)
Definition mapper_at_check (a : Address) (d : Dict) (w : World M) : M :=
  if eq_str (d !! "contentType") "application/tbears"
  then delete_icon_score X a (mapper w)
  else mapper w.

(** Where the params [_on_deploy] hands to [_initialize_score] are held:
    in the calldata [l] when it has the key, nowhere when they are the
    default [{}]. *)
Definition held_in (l : loc) (d : Dict) : option loc :=
  match d !! "params" with
  | Some _ => Some l
  | None => None
  end.

(** The hook [_on_deploy] selects for a deploy type. *)
Definition hook_of (t : DeployType) (score : IconScoreBase) : Method :=
  match t with
  | INSTALL => on_install score
  | UPDATE => on_update score
  end.

Lemma _initialize_score_calls context m held p (w : World M) :
  let out := Engine._initialize_score X context m held p w in
  mapper (snd out) = mapper w
  ∧ (trace (snd out) = trace w ∨ ∃ kw, trace (snd out) = trace w ++ [EvCall m kw]).
Proof.
  unfold Engine._initialize_score. cbv zeta.
  destruct p; try (destruct (fst _); simpl; auto).
  destruct (convert_data_params _ _ _) as [exc converted].
  destruct held; eng_unfold; simpl; repeat case_match; simplify_eq/=; eauto.
Qed.

(** [_on_deploy] in two steps, for a dictionary [d] already read: the
    link made in tbears mode, and everything from the deployer on. *)
Definition link_step (context : IconScoreContext) (a : Address) (d : Dict) : Eng M unit :=
  if eq_str (d !! "contentType") "application/tbears" then
    modify (fun w => set_mapper (delete_icon_score X a (mapper w)) w) ;;
    score_root_path <- gets (fun w => score_root_path X (mapper w)) ;;
    let target_path := path_join score_root_path (hex (to_bytes X a)) in
    os.makedirs target_path ;;
    let target_path :=
      path_join target_path (version_name (height (block context)) (index (tx context))) in
    except_FileExistsError_pass (os.symlink (d !! "content") target_path)
  else ret tt.

Definition hook_step (context : IconScoreContext) (t : DeployType) (a : Address)
    (l : loc) (d : Dict) : Eng M unit :=
  IconScoreDeployer.deploy a (d !! "content") (height (block context)) (index (tx context)) ;;
  db_exist <- gets (fun w => is_exist_db X a (mapper w)) ;;
  score <- Engine.mapper_get_icon_score X context a ;;
  match score with
  | None => raise (InvalidParamsException (MsgAddr "score is None : " a))
  | Some score =>
      if negb db_exist
      then Engine._initialize_score X context (hook_of t score)
             (held_in l d) (default (VDict []) (d !! "params"))
      else ret tt
  end.

Lemma _on_deploy_steps context t a l d (w : World M) :
  heap w !! l = Some d →
  Engine._on_deploy X context t a l w
  = bind (link_step context a d) (fun _ => hook_step context t a l d) w.
Proof.
  intros Hd. unfold Engine._on_deploy, link_step, hook_step.
  do 3 (unfold bind at 1; unfold dict_get at 1; rewrite Hd; cbv beta iota).
  reflexivity.
Qed.

Lemma link_step_frame context a d (w : World M) :
  let w' := snd (link_step context a d w) in
  trace w' = trace w ∧ heap w' = heap w ∧ storage w' = storage w ∧ slots w' = slots w
  ∧ mapper w' = mapper_at_check a d w.
Proof.
  unfold link_step, mapper_at_check. cbv zeta.
  destruct (eq_str _ _); [|done]. eng_unfold. simpl.
  repeat case_match; simplify_eq/=; done.
Qed.

Lemma hook_step_calls context t a l d (w : World M) :
  let out := hook_step context t a l d w in
  ∃ calls,
    trace (snd out)
    = trace w ++ EvDeployerDeploy a (d !! "content") (height (block context))
                   (index (tx context)) :: calls
    ∧ (calls = [] ∨ ∃ score kw, calls = [EvCall (hook_of t score) kw]
                      ∧ is_exist_db X a (mapper w) = false)
    ∧ (is_exist_db X a (mapper w) = true → calls = []).
Proof.
  cbv zeta. unfold hook_step. eng_unfold. simpl.
  set (ev := EvDeployerDeploy _ _ _ _).
  set (w1 := match slots w !! _ with Some _ => _ | None => _ end).
  assert (trace w1 = trace w ++ [ev] ∧ mapper w1 = mapper w) as [Ht Hm].
  { unfold w1. by destruct (slots w !! _). }
  rewrite Hm. destruct (get_icon_score X context a w1) as [[score|] m]; simpl.
  - destruct (is_exist_db X a (mapper w)) eqn:Hdb; simpl.
    + exists []. rewrite Ht. auto.
    + destruct (_initialize_score_calls context (hook_of t score) (held_in l d)
                  (default (VDict []) (d !! "params")) (set_mapper m w1)) as [_ [H|[kw H]]].
      * exists []. rewrite H. simpl. rewrite Ht. auto.
      * exists [EvCall (hook_of t score) kw]. rewrite H. simpl. rewrite Ht, <- app_assoc.
        split; [done|]. split; [|done]. right. eauto.
  - exists []. rewrite Ht. auto.
Qed.

Lemma _on_deploy_calls context t a l d (w : World M) :
  heap w !! l = Some d →
  let out := Engine._on_deploy X context t a l w in
  ∃ evs, trace (snd out) = trace w ++ evs
    ∧ (hook_calls evs = []
       ∨ ∃ score kw, hook_calls evs = [(hook_of t score, kw)]
           ∧ is_exist_db X a (mapper_at_check a d w) = false)
    ∧ (is_exist_db X a (mapper_at_check a d w) = true → hook_calls evs = []).
Proof.
  intros Hd. cbv zeta. rewrite (_on_deploy_steps _ _ _ _ _ _ Hd). unfold bind.
  destruct (link_step_frame context a d w) as (Ht & _ & _ & _ & Hm).
  destruct (link_step context a d w) as [[[u|e]|] w1]; simpl in *.
  2,3: exists []; rewrite app_nil_r; auto.
  destruct (hook_step_calls context t a l d w1) as (calls & Hc & Hor & Hdb).
  eexists. rewrite Hc, Ht. split; [reflexivity|]. rewrite Hm in *.
  destruct Hor as [->|(score & kw & -> & Hno)]; simpl; [auto|].
  split; [right; eauto|]. intros H. rewrite Hno in H. discriminate.
Qed.
End Hooks.

(** ** What [_score_deploy] and [deploy] do, step by step *)

Section Steps.
Context {M : Type} (X : Externals M) (self : IconScoreDeployEngine).

(** The content-type dispatch of [_score_deploy] on a dictionary [d]: the
    dictionary it leaves, or the exception it raises. *)
Definition decoded (d : Dict) : Result Dict :=
  if eq_str (d !! "contentType") "application/tbears" then Ok d
  else if eq_str (d !! "contentType") "application/zip" then
    match d !! "content" with
    | None => Raise (KeyError "content")
    | Some (VStr s) =>
        match fromhex (drop_str 2 s) with
        | Some b => Ok (<["content" := VBytes b]> d)
        | None => Raise ValueError
        end
    | Some _ => Raise TypeError
    end
  else Raise (InvalidParamsException (MsgVal "Invalid contentType: " (d !! "contentType"))).

Lemma set_heap_id l d (w : World M) :
  heap w !! l = Some d → set_heap (<[l := d]> (heap w)) w = w.
Proof. intros H. destruct w. unfold set_heap. simpl in *. by rewrite insert_id. Qed.

Lemma _score_deploy_decoded context t a l d (w : World M) :
  heap w !! l = Some d →
  Engine._score_deploy X context t a l w
  = match decoded d with
    | Ok d' => Engine._on_deploy X context t a l (set_heap (<[l := d']> (heap w)) w)
    | Raise e => (Done (Raise e), w)
    end.
Proof.
  intros Hd. unfold Engine._score_deploy, decoded.
  unfold bind at 1. unfold dict_get at 1. rewrite Hd. cbv beta iota.
  destruct (eq_str (d !! "contentType") "application/tbears").
  { unfold bind, ret. by rewrite set_heap_id. }
  destruct (eq_str (d !! "contentType") "application/zip"); [|reflexivity].
  unfold bind at 1 2. unfold dict_getitem, dict_get, bind. rewrite Hd.
  destruct (d !! "content") as [[s|b|z|kvs]|]; try reflexivity.
  unfold ret, raise, fromhex_from_2, dict_setitem.
  destruct (fromhex (drop_str 2 s)); [|reflexivity].
  cbv beta iota delta [ret]. by rewrite Hd.
Qed.

(** The world once [deploy] has found the record [r] of the hash: the
    call is on the trace, a new dictionary holds the recorded calldata,
    and [update_score_info] has run. *)
Definition promoted (h : bytes) (r : TxDeployRecord) (w : World M) : World M :=
  set_storage (DeployStorage.promote (rec_score_address r) h (storage w))
    (set_heap (<[fresh (dom (heap w)) := rec_data r]> (heap w))
       (set_trace (trace w ++ [EvDeploy h]) w)).

Lemma deploy_unfold context h (w : World M) :
  Engine.deploy X context h w
  = match tx_records (storage w) !! h with
    | None =>
        (Done (Raise (InvalidParamsException (MsgHash "tx_params is None : " h))),
         set_trace (trace w ++ [EvDeploy h]) w)
    | Some r =>
        match deploy_infos (storage w) !! rec_score_address r with
        | None =>
            (Done (Raise (InvalidParamsException
                            (MsgAddr "deploy_info is None : " (rec_score_address r)))),
             promoted h r w)
        | Some _ =>
            Engine._score_deploy X context (rec_deploy_type r) (rec_score_address r)
              (fresh (dom (heap w))) (promoted h r w)
        end
    end.
Proof.
  unfold Engine.deploy. eng_unfold. simpl.
  destruct (tx_records (storage w) !! h) as [r|]; simpl; [|reflexivity].
  rewrite lookup_alter_eq. fold (promoted h r w).
  by destruct (deploy_infos (storage w) !! rec_score_address r).
Qed.

Lemma promoted_heap h r (w : World M) :
  heap (promoted h r w) !! fresh (dom (heap w)) = Some (rec_data r).
Proof. simpl. apply lookup_insert_eq. Qed.

(** An address with no [DeployInfo] is left as it is by the promotion. *)
Lemma promote_absent a h (s : Storage) :
  deploy_infos s !! a = None → DeployStorage.promote a h s = s.
Proof.
  intros H. destruct s as [infos recs]. unfold DeployStorage.promote. simpl in *.
  f_equal. apply map_eq. intros k. destruct (decide (a = k)) as [->|Hne].
  - by rewrite lookup_alter_eq, H.
  - by rewrite lookup_alter_ne.
Qed.
End Steps.

Section AtMostOnce.
Context {M : Type} (X : Externals M).

(** Two properties of a SCORE mapper: resolving an instance leaves the
    database of the address in existence, and dropping the cached
    instance does not remove the database. *)
Definition resolution_creates_db : Prop :=
  ∀ context a (w : World M) score m,
    get_icon_score X context a w = (Some score, m) → is_exist_db X a m = true.

Definition delete_keeps_db : Prop :=
  ∀ a m, is_exist_db X a (delete_icon_score X a m) = is_exist_db X a m.




Lemma decoded_content_type d d' :
  decoded d = Ok d' → d' !! "contentType" = d !! "contentType".
Proof.
  unfold decoded. repeat case_match; intros [= <-]; try done.
  by rewrite lookup_insert_ne.
Qed.

Lemma deploy_no_calls context h r (v : World M) :
  delete_keeps_db →
  tx_records (storage v) !! h = Some r →
  is_exist_db X (rec_score_address r) (mapper v) = true →
  hook_calls (trace (snd (Engine.deploy X context h v))) = hook_calls (trace v).
Proof.
  intros Hdel Hr Hdb. rewrite deploy_unfold, Hr.
  assert (hook_calls (trace v ++ [EvDeploy h]) = hook_calls (trace v)) as Hev.
  { rewrite hook_calls_app. simpl. by rewrite app_nil_r. }
  destruct (deploy_infos (storage v) !! rec_score_address r); [|done].
  rewrite (_score_deploy_decoded _ _ _ _ _ _ _ (promoted_heap h r v)).
  destruct (decoded (rec_data r)) as [d'|e] eqn:Hdec; [|done].
  set (w1 := set_heap _ _).
  destruct (_on_deploy_calls X context (rec_deploy_type r) (rec_score_address r)
              (fresh (dom (heap v))) d' w1) as (evs & Ht & _ & Hno).
  { simpl. apply lookup_insert_eq. }
  rewrite Ht, hook_calls_app, Hno; [by rewrite app_nil_r|].
  unfold mapper_at_check. destruct (eq_str _ _); [rewrite Hdel|]; exact Hdb.
Qed.

End AtMostOnce.

(** ** The exceptions of [_score_deploy] *)

Section Raises.
Context {M : Type} (X : Externals M).

(** What [_score_deploy] can raise for the address [a]: the two
    [InvalidParamsException]s of its own, the Python errors of the
    dictionary, decoding and file system calls, and whatever the type
    converter or the hook raises. *)
Definition raised_by_score_deploy (a : Address) (e : Exception) : Prop :=
  match e with
  | InvalidParamsException (MsgVal text _) => text = "Invalid contentType: "
  | InvalidParamsException (MsgAddr text a') => text = "score is None : " ∧ a' = a
  | InvalidParamsException _ | InvalidRequestException _ => False
  | KeyError _ | TypeError | ValueError | FileExistsError _ | FileNotFoundError
  | NotADirectoryError | OSError _ | Propagated _ => True
  end.

Lemma _initialize_score_raises context m held p (w : World M) e :
  fst (Engine._initialize_score X context m held p w) = Done (Raise e) →
  e = TypeError ∨ ∃ f, e = Propagated f.
Proof.
  unfold Engine._initialize_score. cbv zeta.
  destruct p as [s|b|z|kvs].
  1-3: destruct (convert_data_params _ _ _).1; eng_unfold; simpl; intros [= <-]; eauto.
  destruct (convert_data_params _ _ _) as [exc converted].
  destruct held; eng_unfold; simpl; repeat case_match; simplify_eq/=;
    intros [= <-]; eauto.
Qed.

(** The exceptions of the [os] calls. *)
Definition os_error (e : Exception) : Prop :=
  match e with
  | TypeError | ValueError | FileExistsError _ | FileNotFoundError | NotADirectoryError
  | OSError _ => True
  | _ => False
  end.

Lemma mkdirs_along_error f qs p e f' :
  os.mkdirs_along f qs p = (Some e, f') → os_error e.
Proof.
  revert f. induction qs as [|q qs IH]; intros f; simpl.
  - unfold os.mkdir_leaf, os.path_error.
    repeat case_match; intros ?; simplify_eq/=; exact I.
  - unfold os.mkdir_ancestor, os.path_error.
    repeat case_match; simplify_eq/=; eauto; intros ?; simplify_eq/=; exact I.
Qed.

Lemma symlink_error_os src dst e : os.symlink_error src dst = Some e → os_error e.
Proof.
  unfold os.symlink_error, os.source_error, os.path_error.
  repeat case_match; intros ?; simplify_eq; exact I.
Qed.

Lemma symlink_raises src dst (w : World M) e :
  fst (os.symlink src dst w) = Done (Raise e) → os_error e.
Proof.
  unfold os.symlink. destruct (os.symlink_error src dst) as [e'|] eqn:He.
  - intros [= <-]. by apply symlink_error_os in He.
  - destruct (fs w !! dst); [by intros [= <-]|discriminate].
Qed.

Lemma link_step_raises context a d (w : World M) e :
  fst (link_step X context a d w) = Done (Raise e) → os_error e.
Proof.
  unfold link_step. destruct (eq_str _ _); [|discriminate].
  unfold bind, modify, gets, os.makedirs. cbn beta iota.
  destruct (os.mkdirs _ _) as [[e'|] f'] eqn:Hmk.
  - intros [= <-]. by apply mkdirs_along_error in Hmk.
  - unfold except_FileExistsError_pass.
    destruct (os.symlink _ _ _) as [[[u|e']|] w1] eqn:Hs; try discriminate.
    apply (f_equal fst) in Hs. apply symlink_raises in Hs.
    destruct e'; try done; intros [= <-]; done.
Qed.

Lemma hook_step_raises context t a l d (w : World M) e :
  fst (hook_step X context t a l d w) = Done (Raise e) →
  raised_by_score_deploy a e.
Proof.
  unfold hook_step. eng_unfold. simpl.
  destruct (get_icon_score X context a _) as [[score|] m]; simpl.
  - destruct (negb _); [|discriminate]. intros H.
    apply _initialize_score_raises in H as [->|[f ->]]; done.
  - intros [= <-]. done.
Qed.

Lemma _on_deploy_raises context t a l d (w : World M) e :
  heap w !! l = Some d →
  fst (Engine._on_deploy X context t a l w) = Done (Raise e) →
  raised_by_score_deploy a e.
Proof.
  intros Hd. rewrite (_on_deploy_steps _ _ _ _ _ _ _ Hd). unfold bind.
  destruct (link_step X context a d w) as [[[u|e']|] w1] eqn:Hl; simpl.
  - apply hook_step_raises.
  - intros [= <-]. apply (f_equal fst) in Hl. simpl in Hl.
    apply link_step_raises in Hl. by destruct e'.
  - discriminate.
Qed.

Lemma decoded_raises a d e : decoded d = Raise e → raised_by_score_deploy a e.
Proof. unfold decoded. repeat case_match; intros [= <-]; done. Qed.

Lemma _score_deploy_raises context t a l d (w : World M) e :
  heap w !! l = Some d →
  fst (Engine._score_deploy X context t a l w) = Done (Raise e) →
  raised_by_score_deploy a e.
Proof.
  intros Hd. rewrite (_score_deploy_decoded _ _ _ _ _ _ _ Hd).
  destruct (decoded d) as [d'|e'] eqn:Hdec; simpl.
  - apply (_on_deploy_raises _ _ _ _ d'). simpl. apply lookup_insert_eq.
  - intros [= <-]. by apply (decoded_raises a) in Hdec.
Qed.
End Raises.

(** ** [deploy]: the two checks, and what a failure leaves behind *)

Section Deploy.
Context {M : Type} (X : Externals M).

(** C4. [deploy] raises [InvalidParamsException] when the storage has no
    params for the transaction hash, and when it has no deploy info for
    the address those params name; when both are there, neither of the
    two exceptions is raised. *)
Theorem C4_deploy_checks_records context h (w : World M) :
  let out := fst (Engine.deploy X context h w) in
  let no_params := InvalidParamsException (MsgHash "tx_params is None : " h) in
  let no_info a := InvalidParamsException (MsgAddr "deploy_info is None : " a) in
  (tx_records (storage w) !! h = None → out = Done (Raise no_params))
  ∧ (∀ r, tx_records (storage w) !! h = Some r →
          deploy_infos (storage w) !! rec_score_address r = None →
          out = Done (Raise (no_info (rec_score_address r))))
  ∧ (∀ r i, tx_records (storage w) !! h = Some r →
            deploy_infos (storage w) !! rec_score_address r = Some i →
            out ≠ Done (Raise no_params) ∧ ∀ a, out ≠ Done (Raise (no_info a))).
Proof.
  cbv zeta. rewrite deploy_unfold. split; [|split].
  - by intros ->.
  - by intros r -> ->.
  - intros r i -> ->.
    assert (∀ e, fst (Engine._score_deploy X context (rec_deploy_type r) (rec_score_address r)
                        (fresh (dom (heap w))) (promoted h r w)) = Done (Raise e) →
                 raised_by_score_deploy (rec_score_address r) e) as H.
    { intros e. apply (_score_deploy_raises _ _ _ _ _ (rec_data r)), promoted_heap. }
    split; [|intros a]; intros Heq; apply H in Heq; simpl in Heq;
      [done | by destruct Heq].
Qed.

(** C3, as amended. A [deploy] that raises because the hash has no
    params, or because the address has no deploy info, leaves the deploy
    storage as it was. A [deploy] that raises later (content type,
    decoding, linking, unresolved instance, type conversion, hook) has
    run [update_score_info] and does not undo it: the deploy storage is
    the promoted one, so [current_tx_hash] of the address is the hash of
    the failed call. *)
Theorem C3_failed_deploy_keeps_promotion context h (w : World M) e :
  fst (Engine.deploy X context h w) = Done (Raise e) →
  let v := snd (Engine.deploy X context h w) in
  match tx_records (storage w) !! h with
  | None =>
      e = InvalidParamsException (MsgHash "tx_params is None : " h)
      ∧ storage v = storage w
  | Some r =>
      let a := rec_score_address r in
      match deploy_infos (storage w) !! a with
      | None =>
          e = InvalidParamsException (MsgAddr "deploy_info is None : " a)
          ∧ storage v = storage w
      | Some i =>
          raised_by_score_deploy a e
          ∧ storage v = DeployStorage.promote a h (storage w)
          ∧ deploy_infos (storage v) !! a
            = Some (mkDeployInfo (owner i) (Some h) (next_tx_hash i))
      end
  end.
Proof.
  cbv zeta. rewrite deploy_unfold.
  destruct (tx_records (storage w) !! h) as [r|]; [|by intros [= <-]].
  destruct (deploy_infos (storage w) !! rec_score_address r) as [i|] eqn:Hi.
  - intros He. split.
    { eapply _score_deploy_raises; [apply promoted_heap | exact He]. }
    rewrite _score_deploy_preserves_storage. simpl. split; [done|].
    by rewrite lookup_alter_eq, Hi.
  - intros [= <-]. split; [done|]. simpl. by apply promote_absent.
Qed.
End Deploy.

(** ** A deploy, an approval and an update, on the concrete collaborators *)

Module Scenario.
Import Sample.

(** Alice installs [token] under audit: the deploy stays pending. *)
Definition pending : World (gset Address) :=
  snd (Engine.invoke X audit_on (context1 alice tx1) ZERO_SCORE_ADDRESS token zip_data
         empty_world).

(** The approval flow deploys it. *)
Definition installed : World (gset Address) :=
  snd (Engine.deploy X (context1 bob [x0a]) tx1 pending).

(** Alice sends an update whose content type is not supported. *)
Definition update_pending : World (gset Address) :=
  snd (Engine.invoke X audit_on (context1 alice tx2) token token text_data installed).
End Scenario.

Example pending_info :
  deploy_infos (storage Scenario.pending) !! Sample.token
  = Some (mkDeployInfo Sample.alice None (Some Sample.tx1)).
Proof. vm_compute. reflexivity. Qed.

Example installed_info :
  fst (Engine.deploy Sample.X (Sample.context1 Sample.bob [x0a]) Sample.tx1 Scenario.pending)
  = Done (Ok tt)
  ∧ deploy_infos (storage Scenario.installed) !! Sample.token
    = Some (mkDeployInfo Sample.alice (Some Sample.tx1) (Some Sample.tx1))
  ∧ trace Scenario.installed
    = [EvDeploy Sample.tx1;
       EvDeployerDeploy Sample.token (Some (VBytes [x12; x34])) 12 3;
       EvCall (on_install (Instance 1)) []].
Proof. vm_compute. repeat split; reflexivity. Qed.

(** Deploying the same hash again calls no hook. *)
Example installed_again :
  trace (snd (Engine.deploy Sample.X (Sample.context1 Sample.bob [x0a]) Sample.tx1
                Scenario.installed))
  = trace Scenario.installed
    ++ [EvDeploy Sample.tx1; EvDeployerDeploy Sample.token (Some (VBytes [x12; x34])) 12 3].
Proof. vm_compute. reflexivity. Qed.

Section AllOrNothing.
Context {M : Type} (X : Externals M).

(** The claim as the specification words it: after a [deploy] that
    raises, [current_tx_hash] of the address the params name is what it
    was before the call. *)
Definition failed_deploy_keeps_current (context : IconScoreContext) (h : bytes)
    (w : World M) : Prop :=
  ∀ e r,
    fst (Engine.deploy X context h w) = Done (Raise e) →
    tx_records (storage w) !! h = Some r →
    current_tx_hash <$> deploy_infos (storage (snd (Engine.deploy X context h w)))
                          !! rec_score_address r
    = current_tx_hash <$> deploy_infos (storage w) !! rec_score_address r.
End AllOrNothing.

(** Approving the unsupported update fails with "Invalid contentType", and
    [current_tx_hash] of the token has moved from the first hash to the
    second. *)
Lemma C3_counterexample :
  ¬ failed_deploy_keeps_current Sample.X (Sample.context1 Sample.bob [x0b]) Sample.tx2
      Scenario.update_pending.
Proof.
  intros H.
  specialize (H (InvalidParamsException (MsgVal "Invalid contentType: " (Some (VStr "text/plain"))))
                (mkTxDeployRecord Sample.token UPDATE Sample.alice Sample.text_data)).
  vm_compute in H. specialize (H eq_refl eq_refl). discriminate H.
Qed.

Lemma C3_witness :
  let context := Sample.context1 Sample.bob [x0b] in
  let e := InvalidParamsException (MsgVal "Invalid contentType: " (Some (VStr "text/plain"))) in
  let out := Engine.deploy Sample.X context Sample.tx2 Scenario.update_pending in
  fst out = Done (Raise e)
  ∧ raised_by_score_deploy Sample.token e
  ∧ storage (snd out)
    = DeployStorage.promote Sample.token Sample.tx2 (storage Scenario.update_pending)
  ∧ deploy_infos (storage (snd out)) !! Sample.token
    = Some (mkDeployInfo Sample.alice (Some Sample.tx2) (Some Sample.tx2)).
Proof.
  cbv zeta.
  assert (fst (Engine.deploy Sample.X (Sample.context1 Sample.bob [x0b]) Sample.tx2
                 Scenario.update_pending)
          = Done (Raise (InvalidParamsException
                           (MsgVal "Invalid contentType: " (Some (VStr "text/plain"))))))
    as Hfail by (vm_compute; reflexivity).
  split; [exact Hfail|].
  exact (C3_failed_deploy_keeps_promotion Sample.X _ _ _ _ Hfail).
Defined.

(** ** The content type dispatch of [_score_deploy] *)

Section ContentType.
Context {M : Type} (X : Externals M).

(** What the calldata object holds once the type converter has worked
    on the dictionary under 'params'. *)
Definition converted_params (m : Method) (d : Dict) : Dict :=
  match d !! "params" with
  | Some (VDict kvs) =>
      <["params" := snd (convert_data_params X (make_annotations_from_method X m) (VDict kvs))]> d
  | _ => d
  end.

Lemma converted_params_other m d k : k ≠ "params" → converted_params m d !! k = d !! k.
Proof.
  intros Hk. unfold converted_params. repeat case_match; try done.
  by rewrite lookup_insert_ne.
Qed.

Lemma _initialize_score_heap context m l d (w : World M) :
  heap w !! l = Some d →
  heap (snd (Engine._initialize_score X context m (held_in l d)
               (default (VDict []) (d !! "params")) w))
  = <[l := converted_params m d]> (heap w).
Proof.
  intros Hd. unfold Engine._initialize_score, held_in, converted_params. cbv zeta.
  destruct (d !! "params") as [[s|b|z|kvs]|] eqn:Hp; simpl.
  1-3: rewrite insert_id by done; destruct (convert_data_params _ _ _).1; by eng_unfold.
  - destruct (convert_data_params _ _ _) as [exc converted]. eng_unfold. rewrite Hd. simpl.
    repeat case_match; simplify_eq/=; done.
  - rewrite insert_id by done.
    destruct (convert_data_params _ _ _) as [exc converted]. eng_unfold. simpl.
    repeat case_match; simplify_eq/=; done.
Qed.

(** The heap after [_on_deploy]: the calldata object is as it was, or
    holds the converted params of the hook that was initialised; no
    other object changes. *)
Lemma hook_step_heap context t a l d (w : World M) :
  heap w !! l = Some d →
  heap (snd (hook_step X context t a l d w)) = heap w
  ∨ is_exist_db X a (mapper w) = false
    ∧ ∃ score, heap (snd (hook_step X context t a l d w))
               = <[l := converted_params (hook_of t score) d]> (heap w).
Proof.
  intros Hd. unfold hook_step. eng_unfold. simpl.
  set (w1 := match slots w !! _ with Some _ => _ | None => _ end).
  assert (heap w1 = heap w ∧ mapper w1 = mapper w) as [Hh Hm]
    by (unfold w1; by destruct (slots w !! _)).
  rewrite Hm.
  destruct (get_icon_score X context a w1) as [[score|] m]; simpl; [|by left].
  destruct (is_exist_db X a (mapper w)); simpl; [by left|].
  right. split; [done|]. exists score. rewrite _initialize_score_heap; simpl; by rewrite Hh.
Qed.

Lemma _on_deploy_heap context t a l d (w : World M) :
  heap w !! l = Some d →
  heap (snd (Engine._on_deploy X context t a l w)) = heap w
  ∨ is_exist_db X a (mapper_at_check X a d w) = false
    ∧ ∃ score, heap (snd (Engine._on_deploy X context t a l w))
               = <[l := converted_params (hook_of t score) d]> (heap w).
Proof.
  intros Hd. rewrite (_on_deploy_steps _ _ _ _ _ _ _ Hd). unfold bind.
  pose proof (link_step_frame X context a d w) as (_ & E & _ & _ & Em). cbv zeta in E, Em.
  destruct (link_step X context a d w) as [[[u|e]|] w1]; simpl in E, Em; [|by left..].
  rewrite <- E in Hd |- *. rewrite <- Em. by apply hook_step_heap.
Qed.

Lemma mapper_at_check_decoded a d d' (w : World M) h :
  decoded d = Ok d' →
  mapper_at_check X a d' (set_heap h w) = mapper_at_check X a d w.
Proof.
  intros Hdec. unfold mapper_at_check.
  by rewrite (decoded_content_type d d' Hdec).
Qed.

Lemma _score_deploy_heap context t a l d (w : World M) :
  heap w !! l = Some d →
  match decoded d with
  | Ok d' =>
      heap (snd (Engine._score_deploy X context t a l w)) = <[l := d']> (heap w)
      ∨ is_exist_db X a (mapper_at_check X a d w) = false
        ∧ ∃ score, heap (snd (Engine._score_deploy X context t a l w))
                   = <[l := converted_params (hook_of t score) d']> (heap w)
  | Raise _ => heap (snd (Engine._score_deploy X context t a l w)) = heap w
  end.
Proof.
  intros Hd. rewrite (_score_deploy_decoded _ _ _ _ _ _ _ Hd).
  destruct (decoded d) as [d'|e] eqn:Hdec; [|done].
  destruct (_on_deploy_heap context t a l d' (set_heap (<[l := d']> (heap w)) w))
    as [E|[Hdb [score E]]].
  - apply lookup_insert_eq.
  - by left.
  - right. rewrite (mapper_at_check_decoded a d d' w _ Hdec) in Hdb. split; [done|].
    exists score. rewrite E. simpl. by rewrite insert_insert_eq.
Qed.


Lemma decoded_zip d s b :
  d !! "contentType" = Some (VStr "application/zip") →
  d !! "content" = Some (VStr s) →
  fromhex (drop_str 2 s) = Some b →
  decoded d = Ok (<["content" := VBytes b]> d).
Proof. intros Ht Hc Hb. unfold decoded. by rewrite Ht, Hc, Hb. Qed.

Lemma decoded_unsupported d :
  d !! "contentType" ≠ Some (VStr "application/tbears") →
  d !! "contentType" ≠ Some (VStr "application/zip") →
  decoded d
  = Raise (InvalidParamsException (MsgVal "Invalid contentType: " (d !! "contentType"))).
Proof.
  intros H1 H2. unfold decoded.
  apply eq_str_false in H1, H2. by rewrite H1, H2.
Qed.

(** C5. A content type that is neither "application/tbears" nor
    "application/zip" makes [_score_deploy] raise
    [InvalidParamsException] with the message "Invalid contentType: "
    followed by the content type, before anything is materialized and
    before any hook runs: the world is left as it was, and in [deploy]
    the trace holds the entry into [deploy] and nothing else. For
    "application/zip" and a content "0x" followed by hexadecimal digits,
    the deployer is called with the decoded bytes, and any hook call
    comes after. *)
Theorem C5_content_type_checked_before_materializing :
  (∀ context t a l d (w : World M),
     heap w !! l = Some d →
     d !! "contentType" ≠ Some (VStr "application/tbears") →
     d !! "contentType" ≠ Some (VStr "application/zip") →
     Engine._score_deploy X context t a l w
     = (Done (Raise (InvalidParamsException
                       (MsgVal "Invalid contentType: " (d !! "contentType")))), w))
  ∧ (∀ context h r i (w : World M),
       tx_records (storage w) !! h = Some r →
       deploy_infos (storage w) !! rec_score_address r = Some i →
       rec_data r !! "contentType" ≠ Some (VStr "application/tbears") →
       rec_data r !! "contentType" ≠ Some (VStr "application/zip") →
       let out := Engine.deploy X context h w in
       fst out = Done (Raise (InvalidParamsException
                                (MsgVal "Invalid contentType: " (rec_data r !! "contentType"))))
       ∧ trace (snd out) = trace w ++ [EvDeploy h]
       ∧ slots (snd out) = slots w ∧ fs (snd out) = fs w)
  ∧ (∀ context t a l d hx b (w : World M),
       heap w !! l = Some d →
       d !! "contentType" = Some (VStr "application/zip") →
       d !! "content" = Some (VStr ("0x" +:+ hx)) →
       fromhex hx = Some b →
       ∃ calls,
         trace (snd (Engine._score_deploy X context t a l w))
         = trace w ++ EvDeployerDeploy a (Some (VBytes b)) (height (block context))
                        (index (tx context)) :: calls
         ∧ (calls = [] ∨ ∃ score kw, calls = [EvCall (hook_of t score) kw])).
Proof.
  split; [|split].
  - intros context t a l d w Hd H1 H2.
    by rewrite (_score_deploy_decoded _ _ _ _ _ _ _ Hd), decoded_unsupported.
  - intros context h r i w Hr Hi H1 H2. cbv zeta.
    rewrite deploy_unfold, Hr, Hi.
    rewrite (_score_deploy_decoded _ _ _ _ _ _ _ (promoted_heap h r w)).
    by rewrite decoded_unsupported.
  - intros context t a l d hx b w Hd Ht Hc Hb.
    rewrite (_score_deploy_decoded _ _ _ _ _ _ _ Hd).
    rewrite (decoded_zip d ("0x" +:+ hx) b Ht Hc Hb).
    set (d' := <["content" := VBytes b]> d). set (w1 := set_heap _ w).
    assert (heap w1 !! l = Some d') as Hd' by apply lookup_insert_eq.
    rewrite (_on_deploy_steps _ _ _ _ _ _ _ Hd').
    assert (link_step X context a d' = ret tt) as ->.
    { unfold link_step, d'. by rewrite lookup_insert_ne, Ht. }
    unfold bind, ret.
    destruct (hook_step_calls X context t a l d' w1) as (calls & Hcalls & Hor & _).
    exists calls. rewrite Hcalls. unfold d'. rewrite lookup_insert_eq.
    split; [done|]. destruct Hor as [->|(score & kw & -> & _)]; eauto.
Qed.


End ContentType.

(** ** Built-in scores *)

Lemma length_append (s1 s2 : string) :
  String.length (s1 +:+ s2) = (String.length s1 + String.length s2)%nat.
Proof. induction s1 as [|c s1 IH]; simpl; [done | by rewrite IH]. Qed.

(** Joining a relative, non-empty name to a path gives another path. *)
Lemma path_join_ne (p s : string) :
  String.length s ≠ O → starts_with_slash s = false → path_join p s ≠ p.
Proof.
  intros Hlen Hs Heq. apply (f_equal String.length) in Heq.
  unfold path_join in Heq. rewrite Hs in Heq.
  destruct (_ || _); rewrite ?length_append in Heq; simpl in Heq; lia.
Qed.

Lemma path_join_longer (p s : string) :
  String.length s ≠ O → starts_with_slash s = false →
  (String.length p < String.length (path_join p s))%nat.
Proof.
  intros Hlen Hs. unfold path_join. rewrite Hs.
  destruct (_ || _); rewrite ?length_append; simpl; lia.
Qed.

(** ** What [os.makedirs] touches *)

Lemma prefixes_shorter pre s q :
  q ∈ os.prefixes pre s → (String.length q < String.length pre + String.length s)%nat.
Proof.
  revert pre. induction s as [|c s IH]; intros pre; simpl; [by intros ?%elem_of_nil|].
  intros [Hq|Hq]%elem_of_app.
  - destruct (_ && _); [|by apply elem_of_nil in Hq].
    apply list_elem_of_singleton in Hq as ->. lia.
  - apply IH in Hq. rewrite length_append in Hq. simpl in Hq. lia.
Qed.

Lemma ancestors_shorter p q : q ∈ os.ancestors p → (String.length q < String.length p)%nat.
Proof. intros H%prefixes_shorter. simpl in H. lia. Qed.

Lemma mkdir_ancestor_frame f q r f' :
  os.mkdir_ancestor f q = (r, f') → ∀ q', q' ≠ q → f' !! q' = f !! q'.
Proof.
  unfold os.mkdir_ancestor. intros H q' Hne.
  repeat case_match; simplify_eq; try done. by rewrite lookup_insert_ne.
Qed.

Lemma mkdir_leaf_frame f p r f' :
  os.mkdir_leaf f p = (r, f') → ∀ q', q' ≠ p → f' !! q' = f !! q'.
Proof.
  unfold os.mkdir_leaf. intros H q' Hne.
  repeat case_match; simplify_eq; try done. by rewrite lookup_insert_ne.
Qed.

Lemma mkdirs_along_frame f qs p r f' :
  os.mkdirs_along f qs p = (r, f') → ∀ q, q ∉ qs → q ≠ p → f' !! q = f !! q.
Proof.
  revert f. induction qs as [|q0 qs IH]; intros f; simpl.
  - intros H q _ Hne. by apply (mkdir_leaf_frame f p r f').
  - destruct (os.mkdir_ancestor f q0) as [[e|] f1] eqn:H0.
    + intros [= <- <-] q Hq _. apply (mkdir_ancestor_frame _ _ _ _ H0). set_solver.
    + intros H q Hq Hne. rewrite (IH f1 H q) by set_solver.
      apply (mkdir_ancestor_frame _ _ _ _ H0). set_solver.
Qed.

(** [os.makedirs] changes no entry but the path and its ancestors. *)
Lemma mkdirs_frame f p q :
  (String.length p ≤ String.length q)%nat → q ≠ p →
  snd (os.mkdirs f p) !! q = f !! q.
Proof.
  intros Hlen Hne. unfold os.mkdirs.
  destruct (os.mkdirs_along f (os.ancestors p) p) as [r f'] eqn:H. simpl.
  apply (mkdirs_along_frame _ _ _ _ _ H); [|done].
  intros Hq%ancestors_shorter. lia.
Qed.

Lemma mkdirs_along_isdir f qs p f' :
  os.mkdirs_along f qs p = (None, f') → os.isdir f' p = true.
Proof.
  revert f. induction qs as [|q0 qs IH]; intros f; simpl.
  - unfold os.mkdir_leaf. repeat case_match; intros ?; simplify_eq; [done|].
    unfold os.isdir. simpl. by rewrite lookup_insert_eq.
  - destruct (os.mkdir_ancestor f q0) as [[e|] f1]; [discriminate|]. apply IH.
Qed.

(** When [os.makedirs] returns, the path leads to a directory. *)
Lemma mkdirs_isdir f p : fst (os.mkdirs f p) = None → os.isdir (snd (os.mkdirs f p)) p = true.
Proof.
  unfold os.mkdirs. destruct (os.mkdirs_along _ _ _) as [r f'] eqn:H. simpl.
  intros ->. by apply mkdirs_along_isdir in H.
Qed.

(** A new entry at a path that had none hides no directory. *)
Lemma isdir_insert f p q n :
  f !! q = None → os.isdir f p = true → os.isdir (<[q := n]> f) p = true.
Proof.
  intros Hq. unfold os.isdir. generalize 40%nat. intros k. revert p.
  induction k as [|k IH]; intros p; simpl.
  - destruct (decide (p = q)) as [->|Hne]; [by rewrite Hq|].
    by rewrite lookup_insert_ne.
  - destruct (decide (p = q)) as [->|Hne]; [by rewrite Hq|].
    rewrite lookup_insert_ne by done. destruct (f !! p) as [[| |src]|]; auto.
Qed.

Lemma mkdirs_frame_off f p q :
  q ∉ os.ancestors p → q ≠ p → snd (os.mkdirs f p) !! q = f !! q.
Proof.
  intros Hq Hne. unfold os.mkdirs.
  destruct (os.mkdirs_along f (os.ancestors p) p) as [r f'] eqn:H. simpl.
  by apply (mkdirs_along_frame _ _ _ _ _ H).
Qed.

Lemma symlink_error_not_exists src dst p : os.symlink_error src dst ≠ Some (FileExistsError p).
Proof.
  unfold os.symlink_error, os.source_error, os.path_error.
  repeat case_match; intros ?; simplify_eq.
Qed.

Section MakeAndLink.
Context {M : Type}.

(** The two file system calls of [_on_deploy] and
    [_on_deploy_for_builtin]: the directory is made, then the link, with
    [FileExistsError] passed over. *)
Definition make_and_link (dir slot : string) (src : option PyVal) : Eng M unit :=
  os.makedirs dir ;; except_FileExistsError_pass (os.symlink src slot).

(** How the two calls end, as far as the arguments and the entries
    decide it. *)
Definition link_outcome (f : gmap string Node) (dir slot : string) (src : option PyVal)
    : Result unit :=
  match fst (os.mkdirs f dir) with
  | Some e => Raise e
  | None =>
      match os.symlink_error src slot with
      | Some e => Raise e
      | None => Ok tt
      end
  end.

Lemma make_and_link_cases dir slot src (w : World M) :
  (String.length dir < String.length slot)%nat →
  ∃ f, make_and_link dir slot src w = (Done (link_outcome (fs w) dir slot src), set_fs f w)
    ∧ (∀ q, q ∉ os.ancestors dir → q ≠ dir → q ≠ slot → f !! q = fs w !! q)
    ∧ f !! slot = match link_outcome (fs w) dir slot src with
                  | Ok _ => Some (default (Symlink (default "" (os.fspath src))) (fs w !! slot))
                  | Raise _ => fs w !! slot
                  end
    ∧ (fst (os.mkdirs (fs w) dir) = None → os.isdir f dir = true).
Proof.
  intros Hlen.
  assert (snd (os.mkdirs (fs w) dir) !! slot = fs w !! slot) as Hslot.
  { apply mkdirs_frame; [lia|]. intros ->. lia. }
  pose proof (mkdirs_isdir (fs w) dir) as Hdir.
  pose proof (λ q, mkdirs_frame_off (fs w) dir q) as Hframe.
  unfold make_and_link, link_outcome, bind, os.makedirs.
  destruct (os.mkdirs (fs w) dir) as [[e|] f1]; simpl in *.
  { exists f1. repeat split; auto. }
  unfold except_FileExistsError_pass, os.symlink. simpl.
  destruct (os.symlink_error src slot) as [e|] eqn:He.
  - assert (∀ p, e ≠ FileExistsError p) as Hne.
    { intros p ->. by apply symlink_error_not_exists in He. }
    exists f1. split; [by destruct e; try done; destruct (Hne p)|]. auto.
  - rewrite Hslot. destruct (fs w !! slot) as [n|] eqn:Hs.
    + exists f1. repeat split; auto.
    + exists (<[slot := Symlink (default "" (os.fspath src))]> f1).
      split; [done|]. split; [|split].
      * intros q H1 H2 H3. rewrite lookup_insert_ne by done. auto.
      * by rewrite lookup_insert_eq.
      * intros _. apply isdir_insert; [by rewrite Hslot | auto].
Qed.
End MakeAndLink.

Section Builtin.
Context {M : Type} (X : Externals M).

(** [_on_deploy_for_builtin] in two steps: the link, and everything from
    [is_exist_db] on. *)
Definition builtin_link_step (a : Address) (src : string) : Eng M unit :=
  score_root_path <- gets (fun w => score_root_path X (mapper w)) ;;
  let target_path := path_join score_root_path (hex (to_bytes X a)) in
  os.makedirs target_path ;;
  let target_path := path_join target_path (version_name 0 0) in
  except_FileExistsError_pass (os.symlink (Some (VStr src)) target_path).

Definition builtin_hook_step (context : IconScoreContext) (a : Address) : Eng M unit :=
  is_exist_db <- gets (fun w => is_exist_db X a (mapper w)) ;;
  score <- Engine.mapper_get_icon_score X context a ;;
  match score with
  | None => raise (InvalidParamsException (MsgAddr "score is None : " a))
  | Some score =>
      if negb is_exist_db
      then Engine._initialize_score X context (on_install score) None (VDict [])
      else ret tt
  end.

Lemma deploy_for_builtin_steps context a src (w : World M) :
  Engine.deploy_for_builtin X context a src w
  = bind (builtin_link_step a src) (fun _ => builtin_hook_step context a) w.
Proof.
  unfold Engine.deploy_for_builtin, Engine._score_deploy_for_builtin,
    Engine._on_deploy_for_builtin, builtin_link_step, builtin_hook_step.
  unfold bind, gets. cbv beta iota zeta.
  by destruct (os.makedirs _ w) as [[[u|e]|] w1].
Qed.

(** The directory of the contract and its version-0 slot. *)
Definition contract_dir (a : Address) (w : World M) : string :=
  path_join (score_root_path X (mapper w)) (hex (to_bytes X a)).

Definition version_0_slot (a : Address) (w : World M) : string :=
  path_join (contract_dir a w) (version_name 0 0).

Lemma version_0_slot_longer a (w : World M) :
  (String.length (contract_dir a w) < String.length (version_0_slot a w))%nat.
Proof. apply path_join_longer; vm_compute; [discriminate | reflexivity]. Qed.

Lemma builtin_link_step_make_and_link a src (w : World M) :
  builtin_link_step a src w
  = make_and_link (contract_dir a w) (version_0_slot a w) (Some (VStr src)) w.
Proof. reflexivity. Qed.

Lemma builtin_link_step_frame a src (w : World M) :
  let w' := snd (builtin_link_step a src w) in
  trace w' = trace w ∧ mapper w' = mapper w.
Proof.
  cbv zeta. rewrite builtin_link_step_make_and_link.
  destruct (make_and_link_cases (contract_dir a w) (version_0_slot a w) (Some (VStr src)) w
              (version_0_slot_longer a w)) as (f & -> & _). done.
Qed.
End Builtin.

Section BuiltinClaim.
Context {M : Type} (X : Externals M).


Lemma builtin_hook_step_cases context a (w : World M) :
  builtin_hook_step X context a w
  = match get_icon_score X context a w with
    | (None, m) =>
        (Done (Raise (InvalidParamsException (MsgAddr "score is None : " a))), set_mapper m w)
    | (Some score, m) =>
        if is_exist_db X a (mapper w) then (Done (Ok tt), set_mapper m w)
        else Engine._initialize_score X context (on_install score) None (VDict [])
               (set_mapper m w)
    end.
Proof.
  unfold builtin_hook_step. eng_unfold. simpl.
  destruct (get_icon_score X context a w) as [[score|] m]; simpl; [|done].
  by destruct (is_exist_db X a (mapper w)).
Qed.



End BuiltinClaim.

(** The built-in score [broken] cannot be loaded. A first
    [deploy_for_builtin] links its slot and fails; a second one, from
    another source path, finds the slot taken. *)
Definition relink_world : World (gset Address) :=
  snd (Engine.deploy_for_builtin Sample.X (Sample.context1 Sample.alice Sample.tx1)
         Sample.broken "/builtin/old" Sample.empty_world).

Example relink_world_fs :
  fs relink_world !! "/score/01ffffffffffffffffffffffffffffffffffffffff/0_0"
  = Some (Symlink "/builtin/old")
  ∧ fs relink_world !! "/score/01ffffffffffffffffffffffffffffffffffffffff" = Some Directory
  ∧ mapper relink_world = ∅ ∧ trace relink_world = [].
Proof. vm_compute. repeat split; reflexivity. Qed.


(** The governance score is installed from its source path on an empty
    world: its slot is linked and [on_install] is called with no
    parameters; a second call finds the database and calls nothing. *)
Example builtin_install_once :
  let context := Sample.context1 Sample.alice Sample.tx1 in
  let out := Engine.deploy_for_builtin Sample.X context Sample.governance "/builtin/governance"
               Sample.empty_world in
  fst out = Done (Ok tt)
  ∧ fs (snd out) !! "/score/010000000000000000000000000000000000000001/0_0"
    = Some (Symlink "/builtin/governance")
  ∧ trace (snd out) = [EvCall (on_install (Instance 1)) []]
  ∧ trace (snd (Engine.deploy_for_builtin Sample.X context Sample.governance
                  "/builtin/governance" (snd out)))
    = [EvCall (on_install (Instance 1)) []].
Proof. vm_compute. repeat split; reflexivity. Qed.

(** ** The pre-validator *)

Module PreValidator.
#[local] Open Scope Z_scope.

(** The request [IconPreValidator.execute] is handed: the keys the tests
    put in the dictionary. A request with no 'version' is a legacy one. *)
Record Request := mkRequest {
  version : option Z;
  from_ : Address;
  to : Address;
  value : Z;
  fee : Z;
  stepLimit : Z;
  timestamp : Z;
  nonce : option Z;
  dataType : option string
}.

(** The collaborators of the pre-validator: the balance oracle
    ([IcxEngine.get_balance]), the contract-status oracle
    ([is_score_status_active]), the addresses that have an entry in the
    store the collision check consults, and [generate_score_address]. *)
Record Oracles := mkOracles {
  get_balance : Address → Z;
  is_score_status_active : Address → bool;
  registered : gset Address;
  generate_score_address : Address → Z → option Z → Address
}.

Definition set_to (a : Address) (p : Request) : Request :=
  mkRequest (version p) (from_ p) a (value p) (fee p) (stepLimit p) (timestamp p) (nonce p)
    (dataType p).

Section PreValidator.
Context (O : Oracles).

(** Modelled from the spec: the cost of a transaction, the flat fee of a
    legacy transaction and step limit times step price of one that
    declares a version (spec 4.1, steps 1 and 3). [IconPreValidator] is
    not among the sources. *)
Definition cost (p : Request) (step_price : Z) : Z :=
  match version p with
  | None => fee p
  | Some _ => stepLimit p * step_price
  end.

(** Modelled from the spec: steps 2 and 3 of [execute], which are all of
    [execute_to_check_out_of_balance]: the value is not negative, and the
    balance of the sender covers value plus cost. *)
Definition execute_to_check_out_of_balance (p : Request) (step_price : Z) : Result unit :=
  if (value p <? 0)%Z then Raise (InvalidParamsException (Msg "value < 0"))
  else if (get_balance O (from_ p) <? value p + cost p step_price)%Z
       then Raise (InvalidRequestException (Msg "Out of balance"))
       else Ok tt.

(** Modelled from the spec: step 4 of [execute], a destination of
    contract form is the zero address or an active contract. *)
Definition _validate_destination (p : Request) : Result unit :=
  match prefix (to p) with
  | CONTRACT =>
      if bool_decide (to p = ZERO_SCORE_ADDRESS) || is_score_status_active O (to p) then Ok tt
      else Raise (InvalidRequestException (MsgAddr "Invalid address: " (to p)))
  | EOA => Ok tt
  end.

(** Modelled from the spec: step 5 of [execute], for a deploy transaction
    to the zero address the new address is computed again from sender,
    timestamp and nonce, and must have no entry in the store. *)
Definition _validate_new_score_address_on_deploy_transaction (p : Request) : Result unit :=
  if bool_decide (to p = ZERO_SCORE_ADDRESS) && bool_decide (dataType p = Some "deploy") then
    let score_address := generate_score_address O (from_ p) (timestamp p) (nonce p) in
    if bool_decide (score_address ∈ registered O)
    then Raise (InvalidRequestException (MsgAddr "SCORE address already in use: " score_address))
    else Ok tt
  else Ok tt.

(** Modelled from the spec: [execute], the checks in order, failing at
    the first that does not hold. *)
Definition execute (p : Request) (step_price : Z) : Result unit :=
  match execute_to_check_out_of_balance p step_price with
  | Raise e => Raise e
  | Ok _ =>
      match _validate_destination p with
      | Raise e => Raise e
      | Ok _ => _validate_new_score_address_on_deploy_transaction p
      end
  end.

Definition out_of_balance : Result unit :=
  Raise (InvalidRequestException (Msg "Out of balance")).

(** The claim as the specification words it, for every transaction. *)
Definition out_of_balance_iff_short (p : Request) (step_price : Z) : Prop :=
  execute p step_price = out_of_balance
  ↔ get_balance O (from_ p) < value p + cost p step_price.

Lemma _validate_destination_not_balance p : _validate_destination p ≠ out_of_balance.
Proof. unfold _validate_destination, out_of_balance. repeat case_match; congruence. Qed.

Lemma _validate_new_score_address_not_balance p :
  _validate_new_score_address_on_deploy_transaction p ≠ out_of_balance.
Proof.
  unfold _validate_new_score_address_on_deploy_transaction, out_of_balance.
  repeat case_match; congruence.
Qed.

(** C6, as amended. For a transaction whose value is not negative,
    [execute] fails with [InvalidRequestException] "Out of balance" if
    and only if the balance of the sender is below value plus cost, the
    cost being the fee of a legacy transaction and step limit times step
    price otherwise; with a balance of at least value plus cost the
    balance check passes. *)
Theorem C6_out_of_balance_iff_short (p : Request) (step_price : Z) :
  0 ≤ value p →
  (cost p step_price
   = match version p with None => fee p | Some _ => stepLimit p * step_price end)
  ∧ (execute p step_price = out_of_balance
     ↔ get_balance O (from_ p) < value p + cost p step_price)
  ∧ (value p + cost p step_price ≤ get_balance O (from_ p) →
     execute_to_check_out_of_balance p step_price = Ok tt).
Proof.
  intros Hv. split; [done|].
  unfold execute, execute_to_check_out_of_balance.
  destruct (Z.ltb_spec (value p) 0) as [?|_]; [lia|].
  destruct (Z.ltb_spec (get_balance O (from_ p)) (value p + cost p step_price)) as [Hlt|Hge].
  - split; [done|]. intros ?. lia.
  - split; [|done]. split; [|lia]. intros Heq. exfalso.
    destruct (_validate_destination p) eqn:Hd.
    + by apply _validate_new_score_address_not_balance in Heq.
    + rewrite <- Hd in Heq. by apply _validate_destination_not_balance in Heq.
Qed.

(** C8. A transaction with a negative value makes [execute] fail with
    [InvalidParamsException] "value < 0", whatever the balance of the
    sender: the check comes before the balance check. *)
Theorem C8_negative_value_rejected_first (p : Request) (step_price : Z) :
  value p < 0 →
  execute p step_price = Raise (InvalidParamsException (Msg "value < 0"))
  ∧ execute_to_check_out_of_balance p step_price
    = Raise (InvalidParamsException (Msg "value < 0")).
Proof.
  intros Hv. unfold execute, execute_to_check_out_of_balance.
  destruct (Z.ltb_spec (value p) 0); [done | lia].
Qed.

(** C7. For a deploy transaction to the zero address the new address is
    computed from sender, timestamp and nonce; when it has an entry in
    the store the check fails with [InvalidRequestException] "SCORE
    address already in use: " followed by the address, and so does
    [execute] once value and balance are in order; the same transaction
    sent to that address, an update, passes the check. *)
Theorem C7_generated_address_collision (p : Request) :
  to p = ZERO_SCORE_ADDRESS →
  dataType p = Some "deploy" →
  let score_address := generate_score_address O (from_ p) (timestamp p) (nonce p) in
  let in_use :=
    Raise (InvalidRequestException (MsgAddr "SCORE address already in use: " score_address)) in
  score_address ∈ registered O →
  _validate_new_score_address_on_deploy_transaction p = in_use
  ∧ (∀ step_price, 0 ≤ value p →
       value p + cost p step_price ≤ get_balance O (from_ p) →
       execute p step_price = in_use)
  ∧ (score_address ≠ ZERO_SCORE_ADDRESS →
     _validate_new_score_address_on_deploy_transaction (set_to score_address p) = Ok tt).
Proof.
  intros Hto Hdt score_address in_use Hin.
  assert (_validate_new_score_address_on_deploy_transaction p = in_use) as Hcheck.
  { unfold _validate_new_score_address_on_deploy_transaction. cbv zeta.
    fold score_address. repeat case_bool_decide; simpl; done. }
  split; [done|]. split.
  - intros step_price Hv Hb. unfold execute, execute_to_check_out_of_balance.
    destruct (Z.ltb_spec (value p) 0); [lia|].
    destruct (Z.ltb_spec (get_balance O (from_ p)) (value p + cost p step_price)); [lia|].
    assert (_validate_destination p = Ok tt) as ->; [|exact Hcheck].
    unfold _validate_destination. rewrite Hto. reflexivity.
  - intros Hne. unfold _validate_new_score_address_on_deploy_transaction. simpl.
    by rewrite (bool_decide_eq_false_2 (score_address = ZERO_SCORE_ADDRESS)).
Qed.
End PreValidator.
End PreValidator.

(** ** The pre-validator on the requests of its tests *)

Module Requests.
Import PreValidator.

(** The oracles of the tests: a fixed balance, every contract active, a
    store with the given entries. The address generator always answers
    [Sample.token]. *)
Definition oracles (balance : Z) (entries : gset Address) : Oracles :=
  mkOracles (fun _ => balance) (fun _ => true) entries (fun _ _ _ => Sample.token).

(** The request of [test_negative_balance] and [test_check_balance], with
    the value left open. *)
Definition transfer (v : Z) : Request :=
  mkRequest (Some 3%Z) Sample.alice Sample.token v 0 100 123456 (Some 1%Z) None.

(** The request of [test_validate_generated_score_address]. *)
Definition deploy_request : Request :=
  mkRequest None Sample.alice ZERO_SCORE_ADDRESS 0 0 0 1234567890 None (Some "deploy").
End Requests.

Example check_balance_scenario :
  PreValidator.execute (Requests.oracles 0 ∅) (Requests.transfer 10) 0
  = PreValidator.out_of_balance
  ∧ PreValidator.execute (Requests.oracles 100 ∅) (Requests.transfer 10) 0 = Ok tt
  ∧ PreValidator.execute (Requests.oracles 100 ∅) (Requests.transfer 10) 1
    = PreValidator.out_of_balance.
Proof. vm_compute. repeat split; reflexivity. Qed.

(** A negative value with a balance that does not cover value plus cost:
    the balance is short (0 < -10 + 100), and [execute] fails with
    "value < 0", not with "Out of balance". *)
Lemma C6_counterexample :
  ¬ PreValidator.out_of_balance_iff_short (Requests.oracles 0 ∅) (Requests.transfer (-10)) 1.
Proof.
  intros [_ H].
  assert (PreValidator.execute (Requests.oracles 0 ∅) (Requests.transfer (-10)) 1
          = PreValidator.out_of_balance) as Hex.
  { apply H. vm_compute. reflexivity. }
  vm_compute in Hex. discriminate Hex.
Qed.

Lemma C6_witness :
  (0 ≤ 10)%Z
  ∧ (PreValidator.execute (Requests.oracles 0 ∅) (Requests.transfer 10) 0
     = PreValidator.out_of_balance
     ↔ (0 < 10 + PreValidator.cost (Requests.transfer 10) 0)%Z).
Proof.
  split; [lia|].
  exact (proj1 (proj2 (PreValidator.C6_out_of_balance_iff_short (Requests.oracles 0 ∅)
                         (Requests.transfer 10) 0 ltac:(simpl; lia)))).
Defined.

Lemma C8_witness :
  (-10 < 0)%Z
  ∧ PreValidator.execute (Requests.oracles 0 ∅) (Requests.transfer (-10)) 0
    = Raise (InvalidParamsException (Msg "value < 0")).
Proof.
  split; [lia|].
  exact (proj1 (PreValidator.C8_negative_value_rejected_first (Requests.oracles 0 ∅)
                  (Requests.transfer (-10)) 0 ltac:(simpl; lia))).
Defined.

Lemma C7_witness :
  let O := Requests.oracles 0 {[Sample.token]} in
  PreValidator._validate_new_score_address_on_deploy_transaction O Requests.deploy_request
  = Raise (InvalidRequestException (MsgAddr "SCORE address already in use: " Sample.token))
  ∧ PreValidator._validate_new_score_address_on_deploy_transaction O
      (PreValidator.set_to Sample.token Requests.deploy_request) = Ok tt
  ∧ PreValidator._validate_new_score_address_on_deploy_transaction (Requests.oracles 0 ∅)
      Requests.deploy_request = Ok tt.
Proof.
  cbv zeta.
  pose proof (PreValidator.C7_generated_address_collision (Requests.oracles 0 {[Sample.token]})
                Requests.deploy_request eq_refl eq_refl
                ltac:(simpl; apply elem_of_singleton; reflexivity)) as (H1 & _ & H3).
  split; [exact H1|]. split; [|vm_compute; reflexivity].
  apply H3. discriminate.
Defined.

(** ** The engine on concrete inputs *)

Lemma sample_resolution_creates_db : resolution_creates_db Sample.X.
Proof.
  intros context a w score m. simpl. case_bool_decide; [discriminate|].
  intros [= _ <-]. apply bool_decide_eq_true_2. set_solver.
Qed.

Lemma sample_delete_keeps_db : delete_keeps_db Sample.X.
Proof. intros a m. reflexivity. Qed.

(** A world whose only dictionary object is the calldata of a packaged
    deploy. *)
Definition zip_world : World (gset Address) :=
  mkWorld (mkStorage ∅ ∅) {[1%positive := Sample.zip_data]} ∅ ∅ ∅ [].

Definition text_world : World (gset Address) :=
  mkWorld (mkStorage ∅ ∅) {[1%positive := Sample.text_data]} ∅ ∅ ∅ [].

Lemma C1_witness :
  let context := Sample.context1 Sample.alice Sample.tx1 in
  bypass Sample.X Sample.audit_on context Sample.token
    (written context ZERO_SCORE_ADDRESS Sample.token Sample.zip_data Sample.empty_world) = false
  ∧ Engine.invoke Sample.X Sample.audit_on context ZERO_SCORE_ADDRESS Sample.token
      Sample.zip_data Sample.empty_world
    = (Done (Ok tt),
       written context ZERO_SCORE_ADDRESS Sample.token Sample.zip_data Sample.empty_world).
Proof.
  cbv zeta.
  assert (bypass Sample.X Sample.audit_on (Sample.context1 Sample.alice Sample.tx1) Sample.token
            (written (Sample.context1 Sample.alice Sample.tx1) ZERO_SCORE_ADDRESS Sample.token
               Sample.zip_data Sample.empty_world) = false) as Hb by (vm_compute; reflexivity).
  split; [exact Hb|].
  destruct (C1_invoke_deploys_iff_audit_ignored Sample.X Sample.audit_on
              (Sample.context1 Sample.alice Sample.tx1) ZERO_SCORE_ADDRESS Sample.token
              Sample.zip_data Sample.empty_world) as (_ & _ & H).
  exact (proj1 (H Hb)).
Defined.

Lemma C4_witness :
  fst (Engine.deploy Sample.X (Sample.context1 Sample.bob [x0a]) Sample.tx2 Scenario.pending)
  = Done (Raise (InvalidParamsException (MsgHash "tx_params is None : " Sample.tx2))).
Proof.
  assert (tx_records (storage Scenario.pending) !! Sample.tx2 = None) as Hnone
    by (vm_compute; reflexivity).
  exact (proj1 (C4_deploy_checks_records Sample.X (Sample.context1 Sample.bob [x0a]) Sample.tx2
                  Scenario.pending) Hnone).
Defined.

Lemma C5_witness :
  let context := Sample.context1 Sample.alice Sample.tx1 in
  Engine._score_deploy Sample.X context INSTALL Sample.token 1%positive text_world
  = (Done (Raise (InvalidParamsException
                    (MsgVal "Invalid contentType: " (Sample.text_data !! "contentType")))),
     text_world)
  ∧ ∃ calls,
      trace (snd (Engine._score_deploy Sample.X context INSTALL Sample.token 1%positive zip_world))
      = trace zip_world
        ++ EvDeployerDeploy Sample.token (Some (VBytes [x12; x34])) 12 3 :: calls.
Proof.
  cbv zeta.
  destruct (C5_content_type_checked_before_materializing Sample.X) as (H1 & _ & H3).
  assert (heap text_world !! 1%positive = Some Sample.text_data) as Ht
    by apply lookup_singleton_eq.
  assert (heap zip_world !! 1%positive = Some Sample.zip_data) as Hz
    by apply lookup_singleton_eq.
  assert (Sample.text_data !! "contentType" = Some (VStr "text/plain")) as Hct
    by (vm_compute; reflexivity).
  assert (Sample.zip_data !! "contentType" = Some (VStr "application/zip")) as Hzt
    by (vm_compute; reflexivity).
  assert (Sample.zip_data !! "content" = Some (VStr ("0x" +:+ "1234"))) as Hzc
    by (vm_compute; reflexivity).
  split.
  - apply (H1 (Sample.context1 Sample.alice Sample.tx1) INSTALL Sample.token 1%positive
              Sample.text_data text_world Ht); rewrite Hct; discriminate.
  - destruct (H3 (Sample.context1 Sample.alice Sample.tx1) INSTALL Sample.token 1%positive
                Sample.zip_data "1234" [x12; x34] zip_world Hz Hzt Hzc eq_refl)
      as (calls & Hc & _).
    exists calls. exact Hc.
Defined.

(** A type converter that turns the hexadecimal strings of the params
    into integers, as [TypeConverter] does for an [int] annotation. *)
Module Converting.
Import Sample.

Definition int_of_bytes (bs : bytes) : Z :=
  fold_left (fun acc b => (acc * 256 + Z.of_N (Byte.to_N b))%Z) bs 0%Z.

Definition to_int (v : PyVal) : PyVal :=
  match v with
  | VStr s =>
      match fromhex (drop_str 2 s) with
      | Some bs => VInt (int_of_bytes bs)
      | None => v
      end
  | _ => v
  end.

Definition X : Externals (gset Address) := {|
  is_builtin_score := is_builtin_score Sample.X;
  to_bytes := to_bytes Sample.X;
  score_root_path := score_root_path Sample.X;
  is_exist_db := is_exist_db Sample.X;
  delete_icon_score := delete_icon_score Sample.X;
  get_icon_score := get_icon_score Sample.X;
  make_annotations_from_method := make_annotations_from_method Sample.X;
  convert_data_params _ p :=
    match p with
    | VDict kvs => (None, VDict (map (fun kv => (fst kv, to_int (snd kv))) kvs))
    | _ => (None, p)
    end;
  call _ _ _ := None
|}.


End Converting.





(** * Further properties of the engine *)

(** ** Flags *)

Section Flags.
Context (self : IconScoreDeployEngine).

(** X1. [_is_flag_on(flag)] holds exactly when every bit of [flag] is set
    in the flags of the engine; so a flag of several bits is on only when
    all of them are, and [Flag.NONE] is on whatever the flags are. *)
Theorem X1_is_flag_on_all_bits (flag : Z) :
  (Engine._is_flag_on self flag = true
   ↔ ∀ n, (0 ≤ n)%Z → Z.testbit flag n = true → Z.testbit (_flags self) n = true)
  ∧ Engine._is_flag_on self Flag.NONE = true.
Proof.
  unfold Engine._is_flag_on. split.
  - rewrite Z.eqb_eq. split.
    + intros H n Hn Hb. rewrite <- H, Z.land_spec in Hb.
      by apply andb_true_iff in Hb as [? _].
    + intros H. apply Z.bits_inj'. intros n Hn. rewrite Z.land_spec.
      destruct (Z.testbit flag n) eqn:Hb; [|apply andb_false_r].
      by rewrite (H n Hn Hb).
  - unfold Flag.NONE. by rewrite Z.land_0_r.
Qed.
End Flags.

(** ** Hexadecimal content *)

Lemma hex_byte_digits (b : byte) :
  let hi := (Byte.to_N b / 16)%N in
  let lo := (Byte.to_N b mod 16)%N in
  is_space (hex_digit hi) = false
  ∧ digit_value (hex_digit hi) = Some hi
  ∧ digit_value (hex_digit lo) = Some lo
  ∧ byte_of_nibbles hi lo = Some b.
Proof. destruct b; vm_compute; repeat split; reflexivity. Qed.

Lemma fromhex_two_digits c1 c2 hi lo b s :
  is_space c1 = false → digit_value c1 = Some hi → digit_value c2 = Some lo →
  byte_of_nibbles hi lo = Some b →
  fromhex (String c1 (String c2 s)) = (b ::.) <$> fromhex s.
Proof.
  intros Hs H1 H2 Hb. cbn [fromhex]. rewrite Hs, H1, H2, Hb.
  by destruct (fromhex s).
Qed.

(** Decoding what [bytes.hex] wrote gives the bytes back. *)
Lemma fromhex_hex (bs : bytes) : fromhex (hex bs) = Some bs.
Proof.
  induction bs as [|b bs IH]; [done|].
  destruct (hex_byte_digits b) as (Hs & H1 & H2 & Hb).
  cbn [hex]. rewrite (fromhex_two_digits _ _ _ _ b _ Hs H1 H2 Hb), IH. done.
Qed.

(** Every character of the string is a hexadecimal digit. *)
Fixpoint hex_digits (s : string) : bool :=
  match s with
  | EmptyString => true
  | String c s' => bool_decide (is_Some (digit_value c)) && hex_digits s'
  end.

Lemma digit_not_space c : is_Some (digit_value c) → is_space c = false.
Proof.
  destruct c as [[] [] [] [] [] [] [] []]; vm_compute; try reflexivity;
    intros [x Hx]; discriminate Hx.
Qed.

(** An odd number of hexadecimal digits is no encoding of bytes. *)
Lemma fromhex_odd_digits (s : string) :
  hex_digits s = true → Nat.odd (String.length s) = true → fromhex s = None.
Proof.
  assert (∀ s, (hex_digits s = true → Nat.odd (String.length s) = true → fromhex s = None)
             ∧ ∀ c, hex_digits (String c s) = true →
                    Nat.odd (String.length (String c s)) = true →
                    fromhex (String c s) = None) as H.
  { clear s. induction s as [|c' s IH].
    - split; [discriminate|]. intros c Hd _. cbn [hex_digits] in Hd.
      apply andb_true_iff in Hd as [Hc _]. apply bool_decide_eq_true_1 in Hc.
      cbn [fromhex]. by rewrite (digit_not_space c Hc).
    - destruct IH as [IH0 IH1]. split; [apply IH1|].
      intros c Hd Hodd. cbn [hex_digits] in Hd.
      apply andb_true_iff in Hd as [Hc Hd]. apply andb_true_iff in Hd as [Hc' Hd].
      apply bool_decide_eq_true_1 in Hc. apply bool_decide_eq_true_1 in Hc'.
      cbn [fromhex]. rewrite (digit_not_space c Hc).
      destruct Hc as [x ->], Hc' as [y ->].
      rewrite IH0; [by destruct (byte_of_nibbles x y)|done|].
      cbn [String.length] in Hodd. by rewrite Nat.odd_succ_succ in Hodd. }
  apply H.
Qed.

Lemma drop_str_short (s : string) : (String.length s ≤ 2)%nat → drop_str 2 s = "".
Proof.
  destruct s as [|c1 [|c2 [|c3 s]]]; simpl; intros H; try reflexivity. lia.
Qed.

Section ZipContent.
Context {M : Type} (X : Externals M).

(** What a packaged deploy whose content decodes puts on the trace. *)
Lemma _score_deploy_zip_trace context t a l d s b (w : World M) :
  heap w !! l = Some d →
  d !! "contentType" = Some (VStr "application/zip") →
  d !! "content" = Some (VStr s) →
  fromhex (drop_str 2 s) = Some b →
  ∃ calls,
    trace (snd (Engine._score_deploy X context t a l w))
    = trace w ++ EvDeployerDeploy a (Some (VBytes b)) (height (block context))
                   (index (tx context)) :: calls
    ∧ (calls = [] ∨ ∃ score kw, calls = [EvCall (hook_of t score) kw]).
Proof.
  intros Hd Ht Hc Hb.
  rewrite (_score_deploy_decoded _ _ _ _ _ _ _ Hd), (decoded_zip d s b Ht Hc Hb).
  set (d' := <["content" := VBytes b]> d). set (w1 := set_heap _ w).
  assert (heap w1 !! l = Some d') as Hd' by apply lookup_insert_eq.
  rewrite (_on_deploy_steps _ _ _ _ _ _ _ Hd').
  assert (link_step X context a d' = ret tt) as ->.
  { unfold link_step, d'. by rewrite lookup_insert_ne, Ht. }
  unfold bind, ret.
  destruct (hook_step_calls X context t a l d' w1) as (calls & Hcalls & Hor & _).
  exists calls. rewrite Hcalls. unfold d'. rewrite lookup_insert_eq.
  split; [done|]. destruct Hor as [->|(score & kw & -> & _)]; eauto.
Qed.

(** X2. In a packaged deploy, a calldata dictionary with no 'content'
    raises [KeyError], a content that is already [bytes] raises
    [TypeError], and a [str] content whose part after the first two
    characters does not decode raises [ValueError], as every odd number
    of hexadecimal digits does. In each case nothing has been written:
    the world is as it was. *)
Theorem X2_zip_content_errors context t a l d (w : World M) :
  heap w !! l = Some d →
  d !! "contentType" = Some (VStr "application/zip") →
  let out := Engine._score_deploy X context t a l w in
  (d !! "content" = None → out = (Done (Raise (KeyError "content")), w))
  ∧ (∀ b, d !! "content" = Some (VBytes b) → out = (Done (Raise TypeError), w))
  ∧ (∀ s, d !! "content" = Some (VStr s) → fromhex (drop_str 2 s) = None →
          out = (Done (Raise ValueError), w))
  ∧ (∀ s, d !! "content" = Some (VStr s) → hex_digits (drop_str 2 s) = true →
          Nat.odd (String.length (drop_str 2 s)) = true →
          out = (Done (Raise ValueError), w)).
Proof.
  intros Hd Ht. cbv zeta. rewrite (_score_deploy_decoded _ _ _ _ _ _ _ Hd).
  assert (∀ s, d !! "content" = Some (VStr s) → fromhex (drop_str 2 s) = None →
               decoded d = Raise ValueError) as Hval.
  { intros s Hc Hn. unfold decoded. by rewrite Ht, Hc, Hn. }
  repeat split.
  - intros Hc. unfold decoded. by rewrite Ht, Hc.
  - intros b Hc. unfold decoded. by rewrite Ht, Hc.
  - intros s Hc Hn. by rewrite (Hval s Hc Hn).
  - intros s Hc Hh Ho. by rewrite (Hval s Hc (fromhex_odd_digits _ Hh Ho)).
Qed.

Lemma _score_deploy_zip_content context t a l d s b (w : World M) :
  heap w !! l = Some d →
  d !! "contentType" = Some (VStr "application/zip") →
  d !! "content" = Some (VStr s) →
  fromhex (drop_str 2 s) = Some b →
  ∃ d', heap (snd (Engine._score_deploy X context t a l w)) !! l = Some d'
        ∧ d' !! "content" = Some (VBytes b).
Proof.
  intros Hd Ht Hc Hb.
  pose proof (_score_deploy_heap X context t a l d w Hd) as H.
  rewrite (decoded_zip d s b Ht Hc Hb) in H. destruct H as [->|[_ [score ->]]].
  - eexists. split; [apply lookup_insert_eq|]. apply lookup_insert_eq.
  - eexists. split; [apply lookup_insert_eq|].
    rewrite converted_params_other by done. apply lookup_insert_eq.
Qed.

(** X3. The first two characters of a packaged content are dropped, not
    checked: whatever two characters (of code point below 256) they are,
    when the rest is the hexadecimal writing of the bytes [b], the
    deployer is called with exactly [b], and [b] is what the dictionary
    holds under 'content' afterwards. *)
Theorem X3_zip_prefix_unchecked_round_trip context t a l d c1 c2 b (w : World M) :
  heap w !! l = Some d →
  d !! "contentType" = Some (VStr "application/zip") →
  d !! "content" = Some (VStr (String c1 (String c2 (hex b)))) →
  let v := snd (Engine._score_deploy X context t a l w) in
  (∃ calls,
     trace v = trace w ++ EvDeployerDeploy a (Some (VBytes b)) (height (block context))
                            (index (tx context)) :: calls)
  ∧ ∃ d', heap v !! l = Some d' ∧ d' !! "content" = Some (VBytes b).
Proof.
  intros Hd Ht Hc. cbv zeta.
  assert (fromhex (drop_str 2 (String c1 (String c2 (hex b)))) = Some b) as Hb
    by apply fromhex_hex.
  split.
  - destruct (_score_deploy_zip_trace context t a l d _ b w Hd Ht Hc Hb) as (calls & H & _).
    eauto.
  - exact (_score_deploy_zip_content context t a l d _ b w Hd Ht Hc Hb).
Qed.

(** X4. A packaged content of at most two characters, the empty string
    and "0x" among them, is no error: the deployer is called with the
    empty byte string. *)
Theorem X4_zip_short_content_is_empty context t a l d s (w : World M) :
  heap w !! l = Some d →
  d !! "contentType" = Some (VStr "application/zip") →
  d !! "content" = Some (VStr s) →
  (String.length s ≤ 2)%nat →
  ∃ calls,
    trace (snd (Engine._score_deploy X context t a l w))
    = trace w ++ EvDeployerDeploy a (Some (VBytes [])) (height (block context))
                   (index (tx context)) :: calls.
Proof.
  intros Hd Ht Hc Hlen.
  assert (fromhex (drop_str 2 s) = Some []) as Hb by (by rewrite drop_str_short).
  destruct (_score_deploy_zip_trace context t a l d s [] w Hd Ht Hc Hb) as (calls & H & _).
  eauto.
Qed.
End ZipContent.

(** ** Version slots *)

(** The string has no occurrence of the character. *)
Fixpoint free_of (c0 : ascii) (s : string) : bool :=
  match s with
  | EmptyString => true
  | String c s' => negb (bool_decide (c = c0)) && free_of c0 s'
  end.

Lemma free_of_app c0 s1 s2 :
  free_of c0 (s1 +:+ s2) = free_of c0 s1 && free_of c0 s2.
Proof. induction s1 as [|c s1 IH]; simpl; [done|]. by rewrite IH, andb_assoc. Qed.

Lemma pretty_N_char_digit d c0 :
  c0 ≠ "0"%char → c0 ≠ "1"%char → c0 ≠ "2"%char → c0 ≠ "3"%char → c0 ≠ "4"%char →
  c0 ≠ "5"%char → c0 ≠ "6"%char → c0 ≠ "7"%char → c0 ≠ "8"%char → c0 ≠ "9"%char →
  pretty_N_char d ≠ c0.
Proof. intros. unfold pretty_N_char. repeat case_match; congruence. Qed.

Lemma pretty_N_go_free c0 x s :
  (∀ d, pretty_N_char d ≠ c0) → free_of c0 s = true → free_of c0 (pretty_N_go x s) = true.
Proof.
  intros Hd. revert s. induction (N.lt_wf_0 x) as [x _ IH]. intros s Hs.
  assert (x = 0 ∨ 0 < x)%N as [->|Hx] by lia; [by rewrite pretty_N_go_0|].
  rewrite pretty_N_go_step by done. apply IH; [by apply N.div_lt|].
  simpl. rewrite Hs, andb_true_r. apply negb_true_iff, bool_decide_eq_false_2, Hd.
Qed.

(** The decimal writing of an integer has no character other than the
    digits and the minus sign. *)
Lemma pretty_Z_free c0 (z : Z) :
  (∀ d, pretty_N_char d ≠ c0) → c0 ≠ "-"%char → free_of c0 (pretty z) = true.
Proof.
  intros Hd Hdash.
  assert (∀ p, free_of c0 (pretty (N.pos p)) = true) as Hpos.
  { intros p. unfold pretty, pretty_N. case_decide; [done|]. by apply pretty_N_go_free. }
  destruct z as [|p|p]; unfold pretty, pretty_Z.
  - simpl. rewrite andb_true_r. apply negb_true_iff, bool_decide_eq_false_2.
    intros <-. by apply (Hd 0%N).
  - apply Hpos.
  - change ("-" +:+ pretty p) with (String "-" (pretty (N.pos p))). simpl.
    rewrite Hpos, andb_true_r. apply negb_true_iff, bool_decide_eq_false_2. congruence.
Qed.

Lemma underscore_no_digit d : pretty_N_char d ≠ "_"%char.
Proof. by apply pretty_N_char_digit. Qed.

Lemma slash_no_digit d : pretty_N_char d ≠ "/"%char.
Proof. by apply pretty_N_char_digit. Qed.

(** Two strings with the same separator-free part before the separator
    are split alike. *)
Lemma split_at_separator c0 a a' b b' :
  free_of c0 a = true → free_of c0 a' = true →
  a +:+ String c0 b = a' +:+ String c0 b' → a = a' ∧ b = b'.
Proof.
  revert a'. induction a as [|c a IH]; intros [|c' a'] Ha Ha' Heq; simpl in *.
  - by injection Heq as ->.
  - injection Heq as <- _. rewrite bool_decide_eq_true_2 in Ha' by done. discriminate.
  - injection Heq as -> _. rewrite bool_decide_eq_true_2 in Ha by done. discriminate.
  - injection Heq as -> Heq.
    apply andb_true_iff in Ha as [_ Ha]. apply andb_true_iff in Ha' as [_ Ha'].
    destruct (IH a' Ha Ha' Heq) as [-> ->]. done.
Qed.

Lemma version_name_inj h i h' i' :
  version_name h i = version_name h' i' → h = h' ∧ i = i'.
Proof.
  unfold version_name. intros Heq.
  change ("_" +:+ pretty i) with (String "_" (pretty i)) in Heq.
  change ("_" +:+ pretty i') with (String "_" (pretty i')) in Heq.
  apply split_at_separator in Heq as [Hh Hi];
    try (apply pretty_Z_free; [apply underscore_no_digit | discriminate]).
  split; by apply (inj pretty).
Qed.

Lemma version_name_relative h i :
  starts_with_slash (version_name h i) = false ∧ String.length (version_name h i) ≠ O.
Proof.
  split.
  - assert (free_of "/" (version_name h i) = true) as Hfree.
    { unfold version_name. rewrite !free_of_app.
      rewrite !pretty_Z_free by (apply slash_no_digit || discriminate). done. }
    destruct (version_name h i) as [|c s]; [done|]. simpl in *.
    apply andb_true_iff in Hfree as [Hc _]. by apply negb_true_iff in Hc.
  - unfold version_name. rewrite !length_append. simpl. lia.
Qed.

Lemma path_join_inj p s s' :
  starts_with_slash s = false → starts_with_slash s' = false →
  path_join p s = path_join p s' → s = s'.
Proof.
  intros Hs Hs'. unfold path_join. rewrite Hs, Hs'.
  destruct (_ || _); intros Heq.
  - by apply (inj (String.append p)) in Heq.
  - apply (inj (String.append p)) in Heq. by injection Heq.
Qed.

(** X5. The slot [_on_deploy] links in tbears mode, the directory of the
    contract joined with [f'{height}_{index}'], is a different path for
    every pair of block height and transaction index, and it is never the
    directory of the contract itself: two versions of a contract do not
    share a slot. *)
Theorem X5_version_slots_distinct (dir : string) (h i h' i' : Z) :
  (path_join dir (version_name h i) = path_join dir (version_name h' i') → h = h' ∧ i = i')
  ∧ path_join dir (version_name h i) ≠ dir.
Proof.
  destruct (version_name_relative h i) as [Hs Hl].
  destruct (version_name_relative h' i') as [Hs' _].
  split.
  - intros Heq. by apply version_name_inj, (path_join_inj dir).
  - by apply path_join_ne.
Qed.

(** ** The link of tbears mode *)

Section Tbears.
Context {M : Type} (X : Externals M).

(** The directory and the slot [_on_deploy] computes in tbears mode: the
    root path is read after [delete_icon_score]. *)
Definition tbears_dir (a : Address) (w : World M) : string :=
  path_join (score_root_path X (delete_icon_score X a (mapper w))) (hex (to_bytes X a)).

Definition tbears_slot (context : IconScoreContext) (a : Address) (w : World M) : string :=
  path_join (tbears_dir a w) (version_name (height (block context)) (index (tx context))).


Lemma tbears_slot_longer context a (w : World M) :
  (String.length (tbears_dir a w) < String.length (tbears_slot context a w))%nat.
Proof.
  destruct (version_name_relative (height (block context)) (index (tx context))).
  by apply path_join_longer.
Qed.

Lemma link_step_make_and_link context a d (w : World M) :
  d !! "contentType" = Some (VStr "application/tbears") →
  link_step X context a d w
  = make_and_link (tbears_dir a w) (tbears_slot context a w) (d !! "content")
      (set_mapper (delete_icon_score X a (mapper w)) w).
Proof. intros Ht. unfold link_step. by rewrite Ht. Qed.

Lemma isdir_is_Some f p : os.isdir f p = true → is_Some (f !! p).
Proof. unfold os.isdir. simpl. by destruct (f !! p). Qed.


(** X7. In tbears mode a calldata dictionary with no 'content' makes
    [os.symlink] raise [TypeError]: the deployer is not called and no hook
    runs, but the cached instance has been dropped and the directory of
    the contract has been made by then. *)
Theorem X7_tbears_missing_content context t a l d (w : World M) :
  heap w !! l = Some d →
  d !! "contentType" = Some (VStr "application/tbears") →
  d !! "content" = None →
  fst (os.mkdirs (fs w) (tbears_dir a w)) = None →
  let out := Engine._on_deploy X context t a l w in
  fst out = Done (Raise TypeError)
  ∧ trace (snd out) = trace w ∧ slots (snd out) = slots w
  ∧ mapper (snd out) = delete_icon_score X a (mapper w)
  ∧ is_Some (fs (snd out) !! tbears_dir a w).
Proof.
  intros Hd Ht Hc Hmk. cbv zeta.
  rewrite (_on_deploy_steps _ _ _ _ _ _ _ Hd). unfold bind.
  rewrite (link_step_make_and_link context a d w Ht).
  destruct (make_and_link_cases (tbears_dir a w) (tbears_slot context a w) (d !! "content")
              (set_mapper (delete_icon_score X a (mapper w)) w)
              (tbears_slot_longer context a w)) as (f & -> & _ & _ & Hdir).
  unfold link_outcome. simpl in Hdir |- *. rewrite Hmk, Hc.
  change (os.symlink_error None (tbears_slot context a w)) with (Some TypeError).
  simpl. repeat split; try done. by apply isdir_is_Some, Hdir.
Qed.
End Tbears.

(** ** The calls of a deploy, in order *)

Section DeployOrder.
Context {M : Type} (X : Externals M).

(** X8. A [deploy] that returns has, in this order, entered [deploy],
    called the deployer once, for the recorded address, with the content
    the dispatch on the content type left in the dictionary and with the
    block height and transaction index of the context [deploy] was called
    with, and then called at most one hook, the one of the recorded
    deploy type. *)
Theorem X8_deploy_calls_in_order context h (w v : World M) :
  Engine.deploy X context h w = (Done (Ok tt), v) →
  ∃ r d' calls,
    tx_records (storage w) !! h = Some r
    ∧ decoded (rec_data r) = Ok d'
    ∧ trace v = trace w ++ [EvDeploy h;
                            EvDeployerDeploy (rec_score_address r) (d' !! "content")
                              (height (block context)) (index (tx context))] ++ calls
    ∧ (calls = [] ∨ ∃ score kw, calls = [EvCall (hook_of (rec_deploy_type r) score) kw]).
Proof.
  rewrite deploy_unfold.
  destruct (tx_records (storage w) !! h) as [r|]; [|discriminate].
  destruct (deploy_infos (storage w) !! rec_score_address r); [|discriminate].
  rewrite (_score_deploy_decoded _ _ _ _ _ _ _ (promoted_heap h r w)).
  destruct (decoded (rec_data r)) as [d'|e] eqn:Hdec; [|discriminate].
  set (w1 := set_heap _ _).
  assert (heap w1 !! fresh (dom (heap w)) = Some d') as Hd' by apply lookup_insert_eq.
  rewrite (_on_deploy_steps _ _ _ _ _ _ _ Hd'). unfold bind.
  destruct (link_step_frame X context (rec_score_address r) d' w1) as (Ht & _).
  destruct (link_step X context (rec_score_address r) d' w1) as [[[u|e]|] w2];
    try discriminate.
  intros Hok. simpl in Ht.
  destruct (hook_step_calls X context (rec_deploy_type r) (rec_score_address r)
              (fresh (dom (heap w))) d' w2)
    as (calls & Hcalls & Hor & _).
  rewrite Hok in Hcalls. simpl in Hcalls.
  exists r, d', calls. split; [done|]. split; [done|]. split.
  - rewrite Hcalls, Ht. simpl. by rewrite <- app_assoc.
  - destruct Hor as [->|(score & kw & -> & _)]; eauto.
Qed.
End DeployOrder.

(** ** A hook that was called is not called again *)

Section Retry.
Context {M : Type} (X : Externals M).

Lemma hook_step_called_db context t a l d (w : World M) :
  resolution_creates_db X →
  let v := snd (hook_step X context t a l d w) in
  hook_calls (trace v) = hook_calls (trace w) ∨ is_exist_db X a (mapper v) = true.
Proof.
  intros Hres. cbv zeta. unfold hook_step. eng_unfold. simpl.
  set (ev := EvDeployerDeploy _ _ _ _).
  set (w1 := match slots w !! _ with Some _ => _ | None => _ end).
  assert (trace w1 = trace w ++ [ev]) as Ht by (unfold w1; by destruct (slots w !! _)).
  destruct (get_icon_score X context a w1) as [[score|] m] eqn:Hg; simpl.
  - right. apply Hres in Hg. destruct (negb _); [|done].
    destruct (_initialize_score_calls X context (hook_of t score) (held_in l d)
                (default (VDict []) (d !! "params")) (set_mapper m w1)) as [Hm _].
    by rewrite Hm.
  - left. rewrite Ht, hook_calls_app. simpl. by rewrite app_nil_r.
Qed.

Lemma deploy_called_db context h (w : World M) :
  resolution_creates_db X →
  let v := snd (Engine.deploy X context h w) in
  hook_calls (trace v) = hook_calls (trace w)
  ∨ ∃ r, tx_records (storage v) !! h = Some r
         ∧ is_exist_db X (rec_score_address r) (mapper v) = true.
Proof.
  intros Hres. cbv zeta.
  pose proof (deploy_unfold X context h w) as Hun.
  assert (∀ w' : World M, trace w' = trace w ++ [EvDeploy h] →
            hook_calls (trace w') = hook_calls (trace w)) as Hsame.
  { intros w' ->. rewrite hook_calls_app. simpl. by rewrite app_nil_r. }
  destruct (tx_records (storage w) !! h) as [r|] eqn:Hr;
    [|rewrite Hun; left; by apply Hsame].
  destruct (deploy_infos (storage w) !! rec_score_address r);
    [|rewrite Hun; left; by apply Hsame].
  assert (tx_records (storage (snd (Engine.deploy X context h w))) !! h = Some r) as Hr'.
  { rewrite Hun, _score_deploy_preserves_storage. exact Hr. }
  rewrite Hun in *.
  rewrite (_score_deploy_decoded _ _ _ _ _ _ _ (promoted_heap h r w)) in *.
  destruct (decoded (rec_data r)) as [d'|e]; [|left; by apply Hsame].
  set (w1 := set_heap _ _) in *.
  assert (heap w1 !! fresh (dom (heap w)) = Some d') as Hd' by apply lookup_insert_eq.
  rewrite (_on_deploy_steps _ _ _ _ _ _ _ Hd') in *. unfold bind in *.
  destruct (link_step_frame X context (rec_score_address r) d' w1) as (Ht & _).
  destruct (link_step X context (rec_score_address r) d' w1) as [[[u|e]|] w2];
    simpl in Ht; try (left; apply Hsame; simpl; by rewrite Ht).
  destruct (hook_step_called_db context (rec_deploy_type r) (rec_score_address r)
              (fresh (dom (heap w))) d' w2 Hres)
    as [Hc|Hdb].
  - left. rewrite Hc. apply Hsame. by rewrite Ht.
  - right. eauto.
Qed.

(** X9. With a mapper for which resolving an instance leaves the database
    in existence, a [deploy] that has called a hook, whether the hook
    returned or raised, is the last one to call a hook for that
    transaction hash: a later [deploy] of the same hash calls none, so a
    hook that failed is not run again. *)
Theorem X9_called_hook_is_not_retried context1 context2 h (w : World M) :
  resolution_creates_db X → delete_keeps_db X →
  let v := snd (Engine.deploy X context1 h w) in
  hook_calls (trace v) ≠ hook_calls (trace w) →
  hook_calls (trace (snd (Engine.deploy X context2 h v))) = hook_calls (trace v).
Proof.
  intros Hres Hdel v Hcalled.
  destruct (deploy_called_db context1 h w Hres) as [Hsame|(r & Hr & Hdb)]; [done|].
  by apply (deploy_no_calls X context2 h r).
Qed.

Lemma deploy_hook_calls context h (w : World M) :
  ∃ evs, trace (snd (Engine.deploy X context h w)) = trace w ++ evs
    ∧ (hook_calls evs = []
       ∨ ∃ r score kw, tx_records (storage w) !! h = Some r
           ∧ hook_calls evs = [(hook_of (rec_deploy_type r) score, kw)]).
Proof.
  rewrite deploy_unfold.
  destruct (tx_records (storage w) !! h) as [r|] eqn:Hr; [|exists [EvDeploy h]; auto].
  destruct (deploy_infos (storage w) !! rec_score_address r); [|exists [EvDeploy h]; auto].
  rewrite (_score_deploy_decoded _ _ _ _ _ _ _ (promoted_heap h r w)).
  destruct (decoded (rec_data r)) as [d'|e]; [|exists [EvDeploy h]; auto].
  set (w1 := set_heap _ _).
  destruct (_on_deploy_calls X context (rec_deploy_type r) (rec_score_address r)
              (fresh (dom (heap w))) d' w1) as (evs & Ht & Hor & _).
  { apply lookup_insert_eq. }
  exists (EvDeploy h :: evs). rewrite Ht. simpl. rewrite <- app_assoc. split; [done|].
  change (hook_calls (EvDeploy h :: evs)) with (hook_calls evs).
  destruct Hor as [->|(score & kw & -> & _)]; eauto 6.
Qed.
End Retry.

(** ** Sequences of [deploy] calls *)

Section Sequences.
Context {M : Type} (X : Externals M).
















End Sequences.

(** A mapper that resolves instances and has no database to show for
    them, as one backed by memory alone. *)
Module Forgetful.
Import Sample.

Definition X : Externals (gset Address) := {|
  is_builtin_score := is_builtin_score Sample.X;
  to_bytes := to_bytes Sample.X;
  score_root_path := score_root_path Sample.X;
  is_exist_db _ _ := false;
  delete_icon_score := delete_icon_score Sample.X;
  get_icon_score := get_icon_score Sample.X;
  make_annotations_from_method := make_annotations_from_method Sample.X;
  convert_data_params := convert_data_params Sample.X;
  call := call Sample.X
|}.
End Forgetful.




Section InstallOrUpdate.
Context {M : Type} (X : Externals M) (self : IconScoreDeployEngine).

(** X10. For a transaction hash that has no params yet, the only hook an
    [invoke] can call is [on_install] when [to] is the zero score address
    and [on_update] when it is any other address: the type of the deploy
    is decided by [to] alone, not by [icon_score_address]. *)
Theorem X10_invoke_hook_decided_by_to context to a data (w : World M) :
  tx_records (storage w) !! hash (tx context) = None →
  ∃ evs, trace (snd (Engine.invoke X self context to a data w)) = trace w ++ evs
    ∧ (hook_calls evs = []
       ∨ ∃ score kw,
           hook_calls evs
           = [(if bool_decide (to = ZERO_SCORE_ADDRESS) then on_install score
               else on_update score, kw)]).
Proof.
  intros Hfresh. rewrite invoke_unfold. cbv zeta.
  set (w1 := written context to a data w).
  destruct (bypass X self context a w1); [|exists []; rewrite app_nil_r; auto].
  destruct (deploy_hook_calls X context (hash (tx context)) w1) as (evs & Ht & Hor).
  exists evs. split; [exact Ht|].
  destruct Hor as [?|(r & score & kw & Hr & Hc)]; [by left|right].
  exists score, kw. rewrite Hc.
  unfold w1, written, DeployStorage.put in Hr. simpl in Hr.
  rewrite Hfresh, lookup_insert_eq in Hr. injection Hr as <-. simpl.
  by destruct (bool_decide (to = ZERO_SCORE_ADDRESS)).
Qed.
End InstallOrUpdate.

(** ** Built-in scores: what is left alone, and a second call *)

Section BuiltinMore.
Context {M : Type} (X : Externals M).

Lemma deploy_for_builtin_preserves {B} (f : World M → B) context a src :
  (∀ m w, f (set_mapper m w) = f w) → (∀ g w, f (set_fs g w) = f w) →
  (∀ t w, f (set_trace t w) = f w) →
  preserves f (Engine.deploy_for_builtin X context a src).
Proof.
  intros Hm Hf Ht.
  unfold Engine.deploy_for_builtin, Engine._score_deploy_for_builtin,
    Engine._on_deploy_for_builtin.
  frame; auto using makedirs_preserves, symlink_preserves,
    mapper_get_icon_score_preserves, _initialize_score_fresh_preserves.
Qed.

Lemma deploy_for_builtin_trace context a src (w : World M) :
  ∃ evs, trace (snd (Engine.deploy_for_builtin X context a src w)) = trace w ++ evs
    ∧ (evs = [] ∨ ∃ score kw, evs = [EvCall (on_install score) kw])
    ∧ (is_exist_db X a (mapper w) = true → evs = []).
Proof.
  rewrite deploy_for_builtin_steps. unfold bind.
  destruct (builtin_link_step_frame X a src w) as [Ht Hm].
  destruct (builtin_link_step X a src w) as [[[u|e]|] w1]; simpl in *.
  2,3: exists []; rewrite app_nil_r; auto.
  rewrite builtin_hook_step_cases, Hm.
  destruct (get_icon_score X context a w1) as [[score|] m].
  2: { exists []. simpl. rewrite Ht, app_nil_r. auto. }
  destruct (is_exist_db X a (mapper w)) eqn:Hdb.
  { exists []. simpl. rewrite Ht, app_nil_r. auto. }
  destruct (_initialize_score_calls X context (on_install score) None (VDict []) (set_mapper m w1))
    as [_ [Hsame|[kw Hcall]]].
  - exists []. rewrite Hsame. simpl. rewrite Ht, app_nil_r. auto.
  - exists [EvCall (on_install score) kw]. rewrite Hcall. simpl. rewrite Ht.
    split; [done|]. split; [eauto|discriminate].
Qed.

Lemma deploy_for_builtin_ok_db context a src (w v : World M) :
  resolution_creates_db X →
  Engine.deploy_for_builtin X context a src w = (Done (Ok tt), v) →
  is_exist_db X a (mapper v) = true.
Proof.
  intros Hres. rewrite deploy_for_builtin_steps. unfold bind.
  destruct (builtin_link_step X a src w) as [[[u|e]|] w1]; try discriminate.
  rewrite builtin_hook_step_cases.
  destruct (get_icon_score X context a w1) as [[score|] m] eqn:Hg; [|discriminate].
  apply Hres in Hg. destruct (is_exist_db X a (mapper w1)).
  - by intros [= <-].
  - intros Hok.
    destruct (_initialize_score_calls X context (on_install score) None (VDict []) (set_mapper m w1))
      as [Hm _].
    rewrite Hok in Hm. simpl in Hm. by rewrite Hm.
Qed.

(** X11. [deploy_for_builtin] keeps no books: the deploy storage, the
    dictionaries and the slots of the deployer are as they were, and the
    only thing it adds to the trace is at most one call of [on_install];
    it does not go through [deploy] or the deployer. *)
Theorem X11_deploy_for_builtin_keeps_no_books context a src (w : World M) :
  let v := snd (Engine.deploy_for_builtin X context a src w) in
  storage v = storage w ∧ heap v = heap w ∧ slots v = slots w
  ∧ ∃ evs, trace v = trace w ++ evs
      ∧ (evs = [] ∨ ∃ score kw, evs = [EvCall (on_install score) kw]).
Proof.
  cbv zeta. repeat split; try (by apply deploy_for_builtin_preserves).
  destruct (deploy_for_builtin_trace context a src w) as (evs & Ht & Hor & _). eauto.
Qed.

(** X12. With a mapper for which resolving an instance leaves the
    database in existence, once [deploy_for_builtin] has returned for an
    address, a later [deploy_for_builtin] for that address, from whatever
    source path, calls no hook. *)
Theorem X12_deploy_for_builtin_installs_once context a src context' src' (w v : World M) :
  resolution_creates_db X →
  Engine.deploy_for_builtin X context a src w = (Done (Ok tt), v) →
  trace (snd (Engine.deploy_for_builtin X context' a src' v)) = trace v.
Proof.
  intros Hres Hok.
  destruct (deploy_for_builtin_trace context' a src' v) as (evs & Ht & _ & Hno).
  rewrite Ht, Hno; [apply app_nil_r|].
  by apply (deploy_for_builtin_ok_db context a src w).
Qed.
End BuiltinMore.

(** ** Errors of the type converter and of the hook *)

Section HookErrors.
Context {M : Type} (X : Externals M).

(** The world once [_on_deploy] has called the deployer. *)
Definition materialized (context : IconScoreContext) (a : Address) (d : Dict)
    (w : World M) : World M :=
  snd (IconScoreDeployer.deploy a (d !! "content") (height (block context))
         (index (tx context)) w).

(** The world once the type converter has worked on the params the
    calldata object [l] holds, if it holds any. *)
Definition params_converted (l : loc) (d : Dict) (left : PyVal) (w : World M) : World M :=
  match d !! "params" with
  | Some _ => set_heap (<[l := <["params" := left]> d]> (heap w)) w
  | None => w
  end.

(** X13. Outside tbears mode, for an address with no database whose
    instance resolves, and params that are a dictionary: when the type
    converter rejects the params, [_on_deploy] raises that error and the
    hook is not called, although the deployer has been called and the
    params are left as the converter left them; when the conversion
    passes and the hook raises, [_on_deploy] raises the error of the hook
    after the one call. Neither error is swallowed or replaced. *)
Theorem X13_hook_errors_propagate context t a l d kvs score m (w : World M) :
  heap w !! l = Some d →
  d !! "contentType" ≠ Some (VStr "application/tbears") →
  default (VDict []) (d !! "params") = VDict kvs →
  is_exist_db X a (mapper w) = false →
  get_icon_score X context a (materialized context a d w) = (Some score, m) →
  let w1 := set_mapper m (materialized context a d w) in
  let annotations := make_annotations_from_method X (hook_of t score) in
  let out := Engine._on_deploy X context t a l w in
  (∀ e left, convert_data_params X annotations (VDict kvs) = (Some e, left) →
        out = (Done (Raise (Propagated e)), params_converted l d left w1))
  ∧ (∀ kw e, convert_data_params X annotations (VDict kvs) = (None, VDict kw) →
        let w2 := params_converted l d (VDict kw) w1 in
        call X (hook_of t score) kw
          (set_trace (trace w2 ++ [EvCall (hook_of t score) kw]) w2) = Some e →
        out = (Done (Raise (Propagated e)),
               set_trace (trace w2 ++ [EvCall (hook_of t score) kw]) w2)).
Proof.
  intros Hd Ht Hp Hdb Hg.
  assert (heap (set_mapper m (materialized context a d w)) !! l = Some d) as Hd1.
  { change (heap (materialized context a d w) !! l = Some d).
    unfold materialized. by rewrite (deployer_deploy_preserves heap). }
  assert (Engine._on_deploy X context t a l w
          = Engine._initialize_score X context (hook_of t score) (held_in l d)
              (default (VDict []) (d !! "params"))
              (set_mapper m (materialized context a d w))) as Hrun.
  { rewrite (_on_deploy_steps _ _ _ _ _ _ _ Hd).
    assert (link_step X context a d = ret tt) as ->.
    { unfold link_step. apply eq_str_false in Ht. by rewrite Ht. }
    unfold bind at 1. unfold ret. unfold hook_step.
    unfold bind at 1.
    assert (IconScoreDeployer.deploy a (d !! "content") (height (block context))
              (index (tx context)) w = (Done (Ok tt), materialized context a d w)) as ->.
    { unfold materialized, IconScoreDeployer.deploy. eng_unfold. simpl.
      by destruct (slots w !! _). }
    assert (mapper (materialized context a d w) = mapper w) as Hm.
    { unfold materialized. by rewrite (deployer_deploy_preserves mapper). }
    unfold bind, gets, Engine.mapper_get_icon_score. by rewrite Hg, Hm, Hdb. }
  cbv zeta. rewrite Hrun, Hp. unfold Engine._initialize_score, params_converted, held_in.
  cbv zeta. split.
  - intros e left ->. destruct (d !! "params"); eng_unfold; by rewrite ?Hd1.
  - intros kw e -> Hcall.
    destruct (d !! "params"); eng_unfold; unfold modify; rewrite ?Hd1; cbv beta iota;
      by rewrite Hcall.
Qed.
End HookErrors.

(** ** The further properties on concrete inputs *)

Module Inputs.
Import Sample.

(** The collaborators of [Sample.X] with a contract whose hooks raise. *)
Definition reverted : Foreign := mkForeign "RevertException" "not allowed".

Definition X_failing : Externals (gset Address) := {|
  is_builtin_score := is_builtin_score X;
  to_bytes := to_bytes X;
  score_root_path := score_root_path X;
  is_exist_db := is_exist_db X;
  delete_icon_score := delete_icon_score X;
  get_icon_score := get_icon_score X;
  make_annotations_from_method := make_annotations_from_method X;
  convert_data_params := convert_data_params X;
  call _ _ _ := Some reverted
|}.

Definition world_of (d : Dict) : World (gset Address) :=
  mkWorld (mkStorage ∅ ∅) {[1%positive := d]} ∅ ∅ ∅ [].

Definition zip_no_content : Dict := <["contentType" := VStr "application/zip"]> ∅.

Definition zip_odd : Dict :=
  <["contentType" := VStr "application/zip"]> (<["content" := VStr "0x123"]> ∅).

Definition zip_other_prefix : Dict :=
  <["contentType" := VStr "application/zip"]> (<["content" := VStr "zz1234"]> ∅).

Definition zip_only_prefix : Dict :=
  <["contentType" := VStr "application/zip"]> (<["content" := VStr "0x"]> ∅).


Definition tbears_no_content : Dict := <["contentType" := VStr "application/tbears"]> ∅.
End Inputs.

Lemma failing_resolution_creates_db : resolution_creates_db Inputs.X_failing.
Proof. exact sample_resolution_creates_db. Qed.

Lemma failing_delete_keeps_db : delete_keeps_db Inputs.X_failing.
Proof. exact sample_delete_keeps_db. Qed.

Lemma X2_witness :
  let context := Sample.context1 Sample.alice Sample.tx1 in
  Engine._score_deploy Sample.X context INSTALL Sample.token 1%positive
    (Inputs.world_of Inputs.zip_no_content)
  = (Done (Raise (KeyError "content")), Inputs.world_of Inputs.zip_no_content)
  ∧ Engine._score_deploy Sample.X context INSTALL Sample.token 1%positive
      (Inputs.world_of Inputs.zip_odd)
    = (Done (Raise ValueError), Inputs.world_of Inputs.zip_odd).
Proof.
  cbv zeta. split.
  - refine (proj1 (X2_zip_content_errors Sample.X _ INSTALL Sample.token 1%positive
                     Inputs.zip_no_content (Inputs.world_of Inputs.zip_no_content) _ _) _).
    + apply lookup_singleton_eq.
    + vm_compute. reflexivity.
    + vm_compute. reflexivity.
  - refine (proj2 (proj2 (proj2 (X2_zip_content_errors Sample.X _ INSTALL Sample.token
                     1%positive Inputs.zip_odd (Inputs.world_of Inputs.zip_odd) _ _)))
              "0x123" _ _ _).
    + apply lookup_singleton_eq.
    + vm_compute. reflexivity.
    + vm_compute. reflexivity.
    + reflexivity.
    + reflexivity.
Defined.

Lemma X3_witness :
  let context := Sample.context1 Sample.alice Sample.tx1 in
  let v := snd (Engine._score_deploy Sample.X context INSTALL Sample.token 1%positive
                  (Inputs.world_of Inputs.zip_other_prefix)) in
  (∃ calls, trace v = [] ++ EvDeployerDeploy Sample.token (Some (VBytes [x12; x34])) 12 3 :: calls)
  ∧ ∃ d', heap v !! 1%positive = Some d' ∧ d' !! "content" = Some (VBytes [x12; x34]).
Proof.
  cbv zeta.
  refine (X3_zip_prefix_unchecked_round_trip Sample.X _ INSTALL Sample.token 1%positive
            Inputs.zip_other_prefix "z" "z" [x12; x34]
            (Inputs.world_of Inputs.zip_other_prefix) _ _ _).
  - apply lookup_singleton_eq.
  - vm_compute. reflexivity.
  - vm_compute. reflexivity.
Defined.

Lemma X4_witness :
  let context := Sample.context1 Sample.alice Sample.tx1 in
  ∃ calls,
    trace (snd (Engine._score_deploy Sample.X context INSTALL Sample.token 1%positive
                  (Inputs.world_of Inputs.zip_only_prefix)))
    = [] ++ EvDeployerDeploy Sample.token (Some (VBytes [])) 12 3 :: calls.
Proof.
  cbv zeta.
  refine (X4_zip_short_content_is_empty Sample.X _ INSTALL Sample.token 1%positive
            Inputs.zip_only_prefix "0x" (Inputs.world_of Inputs.zip_only_prefix) _ _ _ _).
  - apply lookup_singleton_eq.
  - vm_compute. reflexivity.
  - vm_compute. reflexivity.
  - simpl. lia.
Defined.


Lemma X7_witness :
  let context := Sample.context1 Sample.alice Sample.tx1 in
  let w := Inputs.world_of Inputs.tbears_no_content in
  let out := Engine._on_deploy Sample.X context INSTALL Sample.token 1%positive w in
  fst out = Done (Raise TypeError) ∧ trace (snd out) = trace w.
Proof.
  cbv zeta.
  destruct (X7_tbears_missing_content Sample.X (Sample.context1 Sample.alice Sample.tx1)
              INSTALL Sample.token 1%positive Inputs.tbears_no_content
              (Inputs.world_of Inputs.tbears_no_content)) as (H1 & H2 & _).
  - apply lookup_singleton_eq.
  - vm_compute. reflexivity.
  - vm_compute. reflexivity.
  - vm_compute. reflexivity.
  - split; [exact H1 | exact H2].
Defined.

Lemma X8_witness :
  ∃ r d' calls,
    tx_records (storage Scenario.pending) !! Sample.tx1 = Some r
    ∧ decoded (rec_data r) = Ok d'
    ∧ trace Scenario.installed
      = trace Scenario.pending
        ++ [EvDeploy Sample.tx1;
            EvDeployerDeploy (rec_score_address r) (d' !! "content") 12 3] ++ calls
    ∧ (calls = [] ∨ ∃ score kw, calls = [EvCall (hook_of (rec_deploy_type r) score) kw]).
Proof.
  assert (fst (Engine.deploy Sample.X (Sample.context1 Sample.bob [x0a]) Sample.tx1
                 Scenario.pending) = Done (Ok tt)) as Hfst by (vm_compute; reflexivity).
  apply (X8_deploy_calls_in_order Sample.X (Sample.context1 Sample.bob [x0a]) Sample.tx1
           Scenario.pending Scenario.installed).
  rewrite <- Hfst. apply surjective_pairing.
Defined.

Lemma X9_witness :
  let context := Sample.context1 Sample.bob [x0a] in
  let out := Engine.deploy Inputs.X_failing context Sample.tx1 Scenario.pending in
  fst out = Done (Raise (Propagated Inputs.reverted))
  ∧ hook_calls (trace (snd out)) = [(on_install (Instance 1), [])]
  ∧ hook_calls (trace (snd (Engine.deploy Inputs.X_failing context Sample.tx1 (snd out))))
    = hook_calls (trace (snd out)).
Proof.
  cbv zeta.
  assert (hook_calls (trace (snd (Engine.deploy Inputs.X_failing
                                    (Sample.context1 Sample.bob [x0a]) Sample.tx1
                                    Scenario.pending)))
          = [(on_install (Instance 1), [])]) as Hcalls by (vm_compute; reflexivity).
  split; [vm_compute; reflexivity|]. split; [exact Hcalls|].
  apply (X9_called_hook_is_not_retried Inputs.X_failing _ _ Sample.tx1 Scenario.pending
           failing_resolution_creates_db failing_delete_keeps_db).
  rewrite Hcalls. vm_compute. discriminate.
Defined.

Lemma X10_witness :
  let context := Sample.context1 Sample.alice Sample.tx1 in
  ∃ evs,
    trace (snd (Engine.invoke Sample.X Sample.audit_off context ZERO_SCORE_ADDRESS Sample.token
                  Sample.zip_data Sample.empty_world)) = [] ++ evs
    ∧ (hook_calls evs = []
       ∨ ∃ score kw, hook_calls evs = [(on_install score, kw)]).
Proof.
  cbv zeta.
  refine (X10_invoke_hook_decided_by_to Sample.X Sample.audit_off
            (Sample.context1 Sample.alice Sample.tx1) ZERO_SCORE_ADDRESS Sample.token
            Sample.zip_data Sample.empty_world _).
  apply lookup_empty.
Defined.

Lemma X12_witness :
  let context := Sample.context1 Sample.alice Sample.tx1 in
  let first := Engine.deploy_for_builtin Sample.X context Sample.governance
                 "/builtin/governance" Sample.empty_world in
  fst first = Done (Ok tt)
  ∧ trace (snd (Engine.deploy_for_builtin Sample.X context Sample.governance
                  "/builtin/other" (snd first)))
    = trace (snd first).
Proof.
  cbv zeta.
  assert (fst (Engine.deploy_for_builtin Sample.X (Sample.context1 Sample.alice Sample.tx1)
                 Sample.governance "/builtin/governance" Sample.empty_world) = Done (Ok tt))
    as Hfst by (vm_compute; reflexivity).
  split; [exact Hfst|].
  apply (X12_deploy_for_builtin_installs_once Sample.X
           (Sample.context1 Sample.alice Sample.tx1) Sample.governance "/builtin/governance"
           (Sample.context1 Sample.alice Sample.tx1) "/builtin/other" Sample.empty_world _
           sample_resolution_creates_db).
  rewrite <- Hfst. apply surjective_pairing.
Defined.

Lemma X13_witness :
  let context := Sample.context1 Sample.alice Sample.tx1 in
  let w := Inputs.world_of Sample.zip_data in
  fst (Engine._on_deploy Inputs.X_failing context INSTALL Sample.token 1%positive w)
  = Done (Raise (Propagated Inputs.reverted)).
Proof.
  cbv zeta.
  destruct (X13_hook_errors_propagate Inputs.X_failing
              (Sample.context1 Sample.alice Sample.tx1) INSTALL Sample.token 1%positive
              Sample.zip_data [] (Instance 1)
              (snd (get_icon_score Inputs.X_failing (Sample.context1 Sample.alice Sample.tx1)
                      Sample.token
                      (materialized (Sample.context1 Sample.alice Sample.tx1) Sample.token
                         Sample.zip_data (Inputs.world_of Sample.zip_data))))
              (Inputs.world_of Sample.zip_data)) as (_ & Hhook).
  - apply lookup_singleton_eq.
  - vm_compute. discriminate.
  - reflexivity.
  - reflexivity.
  - apply surjective_pairing.
  - rewrite (Hhook [] Inputs.reverted eq_refl eq_refl). reflexivity.
Defined.
